(** * MultiFrameCodec: frame compositing, cursor and the IO/UI task pipeline

    A shallow embedding of [lib/ui/painting/multi_frame_codec.cc] and of the
    [MultiFrameCodec::State] struct declared in [multi_frame_codec.h].

    - Skia bitmaps are a geometry plus a row-major list of 32-bit pixels.
    - The image generator and the image uploader are external collaborators:
      their entry points are the fields of two records.
    - The shared [State] object is a record; the two task runners are FIFO
      queues of defunctionalised closures, and the strong references to the
      [State] are the codec's own [state_] plus one per pending closure that
      captured [shared_from_this()]. *)

From Stdlib Require Import String DecimalString ZArith List Bool Lia Permutation.
Import ListNotations.
Open Scope Z_scope.

(** ** C++ [int] arithmetic *)

Module CInt.

Definition INT_MAX : Z := 2147483647.
Definition INT_MIN : Z := -2147483648.

(** Conversion of an out-of-range value to [int]: reduction modulo 2^32
    into [INT_MIN .. INT_MAX]. *)
Definition to_int (z : Z) : Z := (z + 2147483648) mod 4294967296 - 2147483648.

Definition add (a b : Z) : Z := to_int (a + b).
Definition sub (a b : Z) : Z := to_int (a - b).

(** [a % b] on [int]: the remainder of the division truncated to zero. *)
Definition rem (a b : Z) : Z := Z.rem a b.

(** [ostream << int]. *)
Definition to_string (z : Z) : string := NilZero.string_of_int (Z.to_int z).

End CInt.

(** ** Skia data *)

Inductive SkColorType :=
| kUnknown_SkColorType
| kAlpha_8_SkColorType
| kRGB_565_SkColorType
| kN32_SkColorType
| kRGBA_F16_SkColorType.

Inductive SkAlphaType :=
| kUnknown_SkAlphaType
| kOpaque_SkAlphaType
| kPremul_SkAlphaType
| kUnpremul_SkAlphaType.

Record SkImageInfo := {
  width : Z;
  height : Z;
  colorType : SkColorType;
  alphaType : SkAlphaType
}.

Definition makeColorType (i : SkImageInfo) (c : SkColorType) : SkImageInfo :=
  {| width := width i; height := height i; colorType := c; alphaType := alphaType i |}.

Definition makeAlphaType (i : SkImageInfo) (a : SkAlphaType) : SkImageInfo :=
  {| width := width i; height := height i; colorType := colorType i; alphaType := a |}.

Definition SkAlphaType_eqb (a b : SkAlphaType) : bool :=
  match a, b with
  | kUnknown_SkAlphaType, kUnknown_SkAlphaType
  | kOpaque_SkAlphaType, kOpaque_SkAlphaType
  | kPremul_SkAlphaType, kPremul_SkAlphaType
  | kUnpremul_SkAlphaType, kUnpremul_SkAlphaType => true
  | _, _ => false
  end.

(** Bytes of the smallest pixel buffer for a 4-byte-per-pixel geometry. *)
Definition computeMinByteSize (i : SkImageInfo) : Z :=
  if height i =? 0 then 0 else (height i - 1) * (width i * 4) + width i * 4.

Record SkIRect := {
  fLeft : Z;
  fTop : Z;
  fRight : Z;
  fBottom : Z
}.

(** Half-open containment, as Skia rectangles have it. *)
Definition contains (r : SkIRect) (x y : Z) : bool :=
  (fLeft r <=? x) && (x <? fRight r) && (fTop r <=? y) && (y <? fBottom r).

Definition SK_ColorTRANSPARENT : Z := 0.

Record SkBitmap := {
  info : SkImageInfo;
  pixels : list Z
}.

Fixpoint map_index {A} (f : nat -> A -> A) (i : nat) (l : list A) : list A :=
  match l with
  | [] => []
  | a :: l' => f i a :: map_index f (S i) l'
  end.

Definition in_bounds (b : SkBitmap) (x y : Z) : bool :=
  (0 <=? x) && (x <? width (info b)) && (0 <=? y) && (y <? height (info b)).

Definition getPixel (b : SkBitmap) (x y : Z) : Z :=
  nth (Z.to_nat (y * width (info b) + x)) (pixels b) 0.

(** Rewrites every pixel of [b] from its coordinates and its old value. *)
Definition update_pixels (f : Z -> Z -> Z -> Z) (b : SkBitmap) : SkBitmap :=
  {| info := info b;
     pixels := map_index
                 (fun i p => f (Z.of_nat i mod width (info b))
                               (Z.of_nat i / width (info b)) p)
                 0%nat (pixels b) |}.

(** A successful [tryAllocPixels]: zero-filled storage for the geometry. *)
Definition allocPixels (i : SkImageInfo) : SkBitmap :=
  {| info := i; pixels := repeat 0 (Z.to_nat (width i * height i)) |}.

(** [dst.writePixels(src.pixmap())]: copies [src] at the origin, over the
    part of [dst] that [src] covers. *)
Definition writePixels (dst src : SkBitmap) : SkBitmap :=
  update_pixels (fun x y p => if in_bounds src x y then getPixel src x y else p) dst.

(** [b.erase(color, area)]: fills the part of [area] inside [b]. *)
Definition erase (color : Z) (area : SkIRect) (b : SkBitmap) : SkBitmap :=
  update_pixels (fun x y p => if contains area x y then color else p) b.

(** A bitmap whose storage has one pixel per point of its geometry. *)
Definition well_formed (b : SkBitmap) : Prop :=
  0 <= width (info b) /\ 0 <= height (info b) /\
  Z.of_nat (length (pixels b)) = width (info b) * height (info b).

(** ** The image generator and the uploader *)

(** [SkCodecAnimation::DisposalMethod] names three methods; [kUnspecified]
    stands for any other value of the underlying integer. *)
Inductive DisposalMethod :=
| kKeep
| kRestoreBGColor
| kRestorePrevious
| kUnspecified.

Definition DisposalMethod_eqb (a b : DisposalMethod) : bool :=
  match a, b with
  | kKeep, kKeep
  | kRestoreBGColor, kRestoreBGColor
  | kRestorePrevious, kRestorePrevious
  | kUnspecified, kUnspecified => true
  | _, _ => false
  end.

Record FrameInfo := {
  required_frame : option Z;
  duration : Z;
  disposal_method : DisposalMethod;
  disposal_rect : SkIRect
}.

(** [SkCodec::kNoFrame]. *)
Definition kNoFrame : Z := -1.

(** The [ImageGenerator] interface, as far as the codec calls it.
    [GetPixels info buffer frame prior] is [None] when the C++ call returns
    false, and otherwise the buffer as the generator left it. *)
Record ImageGenerator := {
  GetInfo : SkImageInfo;
  GetFrameCount : Z;
  GetPlayCount : Z;
  kInfinitePlayCount : Z;
  GetFrameInfo : Z -> FrameInfo;
  GetPixels : SkImageInfo -> list Z -> Z -> Z -> option (list Z)
}.

Inductive DlImage := DlImage_of (bitmap : SkBitmap).

Inductive CanvasImage := CanvasImage_of (image : DlImage).

(** The upload entry points reached through the [IOManager]; a null
    [sk_sp<DlImage>] is [None]. *)
Record IOManager := {
  UploadTextureToShared : SkBitmap -> option DlImage * string;
  DlImageGPU_Make : SkBitmap -> option DlImage
}.

(** ** MultiFrameCodec::State *)

Record State := {
  frameCount_ : Z;
  repetitionCount_ : Z;
  is_impeller_enabled_ : bool;
  nextFrameIndex_ : Z;
  lastRequiredFrame_ : option SkBitmap;
  restoreBGColorRect_ : option SkIRect
}.

Definition has_value {A} (o : option A) : bool :=
  match o with Some _ => true | None => false end.

Definition value_or {A} (o : option A) (d : A) : A :=
  match o with Some a => a | None => d end.

Section Codec.

Variable generator_ : ImageGenerator.
Variable io_manager : IOManager.
(** The build flag of the same name. *)
Variable IMPELLER_SUPPORTS_RENDERING : bool.

(** [State::State]. *)
Definition State_new (impeller : bool) : State :=
  {| frameCount_ := CInt.to_int (GetFrameCount generator_);
     repetitionCount_ :=
       if GetPlayCount generator_ =? kInfinitePlayCount generator_
       then -1
       else CInt.sub (GetPlayCount generator_) 1;
     is_impeller_enabled_ := impeller;
     nextFrameIndex_ := 0;
     lastRequiredFrame_ := None;
     restoreBGColorRect_ := None |}.

(** The geometry every frame is decoded with: N32, and premultiplied
    where the source is unpremultiplied. *)
Definition decode_info : SkImageInfo :=
  let info := makeColorType (GetInfo generator_) kN32_SkColorType in
  if SkAlphaType_eqb (alphaType info) kUnpremul_SkAlphaType
  then makeAlphaType info kPremul_SkAlphaType
  else info.

Definition set_lastRequiredFrame (s : State) (b : option SkBitmap) : State :=
  {| frameCount_ := frameCount_ s;
     repetitionCount_ := repetitionCount_ s;
     is_impeller_enabled_ := is_impeller_enabled_ s;
     nextFrameIndex_ := nextFrameIndex_ s;
     lastRequiredFrame_ := b;
     restoreBGColorRect_ := restoreBGColorRect_ s |}.

Definition set_restoreBGColorRect (s : State) (r : option SkIRect) : State :=
  {| frameCount_ := frameCount_ s;
     repetitionCount_ := repetitionCount_ s;
     is_impeller_enabled_ := is_impeller_enabled_ s;
     nextFrameIndex_ := nextFrameIndex_ s;
     lastRequiredFrame_ := lastRequiredFrame_ s;
     restoreBGColorRect_ := r |}.

Definition set_nextFrameIndex (s : State) (i : Z) : State :=
  {| frameCount_ := frameCount_ s;
     repetitionCount_ := repetitionCount_ s;
     is_impeller_enabled_ := is_impeller_enabled_ s;
     nextFrameIndex_ := i;
     lastRequiredFrame_ := lastRequiredFrame_ s;
     restoreBGColorRect_ := restoreBGColorRect_ s |}.

(** [const int requiredFrameIndex]: the optional frame number, or
    [kNoFrame] in its place, narrowed to [int]. *)
Definition requiredFrameIndex (frameInfo : FrameInfo) : Z :=
  CInt.to_int (value_or (required_frame frameInfo) kNoFrame).

(** The freshly allocated bitmap as [DecodeImage] hands it to the
    generator: the [if (requiredFrameIndex != SkCodec::kNoFrame)] block. *)
Definition prepare_bitmap (s : State) (frameInfo : FrameInfo) (bitmap : SkBitmap)
  : SkBitmap :=
  if negb (requiredFrameIndex frameInfo =? kNoFrame) then
    match lastRequiredFrame_ s with
    | None => bitmap
    | Some last =>
        let bitmap := writePixels bitmap last in
        match restoreBGColorRect_ s with
        | Some rect => erase SK_ColorTRANSPARENT rect bitmap
        | None => bitmap
        end
    end
  else bitmap.

(** The bookkeeping of [DecodeImage] after a successful [GetPixels]. *)
Definition retain_frame (s : State) (frameInfo : FrameInfo) (bitmap : SkBitmap)
  : State :=
  let keep_current_frame := DisposalMethod_eqb (disposal_method frameInfo) kKeep in
  let restore_previous_frame :=
    DisposalMethod_eqb (disposal_method frameInfo) kRestorePrevious in
  let previous_frame_available := has_value (lastRequiredFrame_ s) in
  let s :=
    if keep_current_frame || (previous_frame_available && negb restore_previous_frame)
    then set_lastRequiredFrame s (Some bitmap)
    else s in
  if DisposalMethod_eqb (disposal_method frameInfo) kRestoreBGColor
  then set_restoreBGColorRect s (Some (disposal_rect frameInfo))
  else set_restoreBGColorRect s None.

(** [State::DecodeImage]. [alloc_ok] is the outcome of [tryAllocPixels];
    the result is the new state and the arguments the decode callback is
    invoked with. *)
Definition DecodeImage (alloc_ok : bool) (s : State)
  : State * (option SkBitmap * string) :=
  let info := decode_info in
  if negb alloc_ok then
    let decode_error :=
      ("Failed to allocate memory for bitmap of size "
       ++ CInt.to_string (computeMinByteSize info) ++ "B")%string in
    (s, (None, decode_error))
  else
    let bitmap := allocPixels info in
    let frameInfo := GetFrameInfo generator_ (nextFrameIndex_ s) in
    let bitmap := prepare_bitmap s frameInfo bitmap in
    match GetPixels generator_ info (pixels bitmap) (nextFrameIndex_ s)
                    (requiredFrameIndex frameInfo) with
    | None =>
        let decode_error :=
          ("Could not getPixels for frame "
           ++ CInt.to_string (nextFrameIndex_ s))%string in
        (s, (None, decode_error))
    | Some px =>
        let bitmap := {| info := info; pixels := px |} in
        (retain_frame s frameInfo bitmap, (Some bitmap, EmptyString))
    end.

(** [State::GetNextFrameImage]: the Impeller upload when it is compiled in
    and enabled, and otherwise a Skia image, which comes with no error. *)
Definition GetNextFrameImage (s : State) (bitmap : SkBitmap)
  : option DlImage * string :=
  if IMPELLER_SUPPORTS_RENDERING && is_impeller_enabled_ s
  then UploadTextureToShared io_manager bitmap
  else (DlImageGPU_Make io_manager bitmap, EmptyString).

End Codec.

(** The state once [OnGetImageAndInvokeCallback] has moved the cursor. *)
Definition advance (s : State) : State :=
  set_nextFrameIndex s (CInt.rem (CInt.add (nextFrameIndex_ s) 1) (frameCount_ s)).

(** ** Dart values, closures posted to the task runners *)

Inductive Dart_Handle :=
| Dart_Null
| Dart_String (s : string)
| Dart_Integer (z : Z)
| Dart_Closure (id : nat).

Definition Dart_IsClosure (h : Dart_Handle) : bool :=
  match h with Dart_Closure _ => true | _ => false end.

(** A [DartPersistentValue] is identified with the handle it keeps alive. *)
Definition DartPersistentValue := Dart_Handle.

(** The closures the UI task runner receives. *)
Inductive UITask :=
| InvokeNextFrameCallbackTask (image : option CanvasImage) (duration : Z)
    (decode_error : string) (callback : DartPersistentValue)
| ClearCallbackTask (callback : DartPersistentValue).

(** The closures the IO task runner receives: the one [getNextFrame] posts,
    which holds a [weak_ptr] to the state, and the one [DecodeImage] posts,
    whose decode callback captured [shared_from_this()]. *)
Inductive IOTask :=
| GetNextFrameTask (callback : DartPersistentValue)
| DecodedTask (callback : DartPersistentValue) (bitmap : option SkBitmap)
    (decode_error : string).

Definition holds_state (t : IOTask) : bool :=
  match t with DecodedTask _ _ _ => true | GetNextFrameTask _ => false end.

(** One [tonic::DartInvoke] of a next-frame callback. *)
Record DartInvocation := {
  inv_callback : DartPersistentValue;
  inv_image : option CanvasImage;
  inv_duration : Z;
  inv_decode_error : string
}.

(** The codec object, its shared state and both task runners.
    [codec_alive] is false once [~MultiFrameCodec] has run; [state_] is the
    [State] object, which exists as long as a strong reference does. *)
Record World := {
  codec_alive : bool;
  dart_state_alive : bool;
  state_ : State;
  io_tasks : list IOTask;
  ui_tasks : list UITask;
  invocations : list DartInvocation;
  cleared : list DartPersistentValue
}.

Definition set_state (w : World) (s : State) : World :=
  {| codec_alive := codec_alive w; dart_state_alive := dart_state_alive w;
     state_ := s; io_tasks := io_tasks w; ui_tasks := ui_tasks w;
     invocations := invocations w; cleared := cleared w |}.

Definition set_io_tasks (w : World) (q : list IOTask) : World :=
  {| codec_alive := codec_alive w; dart_state_alive := dart_state_alive w;
     state_ := state_ w; io_tasks := q; ui_tasks := ui_tasks w;
     invocations := invocations w; cleared := cleared w |}.

Definition set_ui_tasks (w : World) (q : list UITask) : World :=
  {| codec_alive := codec_alive w; dart_state_alive := dart_state_alive w;
     state_ := state_ w; io_tasks := io_tasks w; ui_tasks := q;
     invocations := invocations w; cleared := cleared w |}.

(** [GetIOTaskRunner()->PostTask] and [GetUITaskRunner()->PostTask]. *)
Definition post_io (w : World) (t : IOTask) : World := set_io_tasks w (io_tasks w ++ [t]).
Definition post_ui (w : World) (t : UITask) : World := set_ui_tasks w (ui_tasks w ++ [t]).

(** [weak_state.lock()] succeeds while the codec or a pending decode
    callback owns the state. *)
Definition weak_state_lock (w : World) : bool :=
  codec_alive w || existsb holds_state (io_tasks w).

Section Pipeline.

Variable generator_ : ImageGenerator.
Variable io_manager : IOManager.
Variable IMPELLER_SUPPORTS_RENDERING : bool.

(** [State::OnGetImageAndInvokeCallback]: the new state and the closure
    posted to the UI task runner. *)
Definition OnGetImageAndInvokeCallback (s : State) (dl_image : option DlImage)
    (decode_error : string) (callback : DartPersistentValue) : State * UITask :=
  let image :=
    match dl_image with
    | Some d => Some (CanvasImage_of d)
    | None => None
    end in
  let duration :=
    match dl_image with
    | Some _ => CInt.to_int (duration (GetFrameInfo generator_ (nextFrameIndex_ s)))
    | None => 0
    end in
  let s := set_nextFrameIndex s
             (CInt.rem (CInt.add (nextFrameIndex_ s) 1) (frameCount_ s)) in
  (s, InvokeNextFrameCallbackTask image duration decode_error callback).

(** The decode callback built by [State::GetNextFrameAndInvokeCallback]. *)
Definition decode_callback (s : State) (sk_bitmap_optional : option SkBitmap)
    (decode_error : string) (callback : DartPersistentValue) : State * UITask :=
  let '(dl_image, decode_error) :=
    match sk_bitmap_optional with
    | Some bitmap =>
        GetNextFrameImage io_manager IMPELLER_SUPPORTS_RENDERING s bitmap
    | None => (None, decode_error)
    end in
  OnGetImageAndInvokeCallback s dl_image decode_error callback.

(** [State::GetNextFrameAndInvokeCallback], on the IO thread: decodes and
    posts the decode callback, with its arguments, back to the IO runner. *)
Definition GetNextFrameAndInvokeCallback (alloc_ok : bool) (w : World)
    (callback : DartPersistentValue) : World :=
  let '(s, (bitmap, decode_error)) := DecodeImage generator_ alloc_ok (state_ w) in
  post_io (set_state w s) (DecodedTask callback bitmap decode_error).

(** [MultiFrameCodec::getNextFrame], on the UI thread. *)
Definition getNextFrame (w : World) (callback_handle : Dart_Handle)
  : World * Dart_Handle :=
  if negb (Dart_IsClosure callback_handle) then
    (w, Dart_String "Callback must be a function")
  else if frameCount_ (state_ w) =? 0 then
    let decode_error := "Could not provide any frame."%string in
    (post_ui w (InvokeNextFrameCallbackTask None 0 decode_error callback_handle),
     Dart_Null)
  else
    (post_io w (GetNextFrameTask callback_handle), Dart_Null).

(** The IO thread runs the task at the head of its queue. *)
Definition run_io_task (alloc_ok : bool) (w : World) : World :=
  match io_tasks w with
  | [] => w
  | GetNextFrameTask callback :: rest =>
      let w := set_io_tasks w rest in
      if weak_state_lock w
      then GetNextFrameAndInvokeCallback alloc_ok w callback
      else post_ui w (ClearCallbackTask callback)
  | DecodedTask callback bitmap decode_error :: rest =>
      let w := set_io_tasks w rest in
      let '(s, t) := decode_callback (state_ w) bitmap decode_error callback in
      post_ui (set_state w s) t
  end.

(** [InvokeNextFrameCallback]. *)
Definition InvokeNextFrameCallback (w : World) (image : option CanvasImage)
    (duration : Z) (decode_error : string) (callback : DartPersistentValue)
  : World :=
  if negb (dart_state_alive w) then w
  else
    {| codec_alive := codec_alive w; dart_state_alive := dart_state_alive w;
       state_ := state_ w; io_tasks := io_tasks w; ui_tasks := ui_tasks w;
       invocations :=
         invocations w ++
           [{| inv_callback := callback; inv_image := image;
               inv_duration := duration; inv_decode_error := decode_error |}];
       cleared := cleared w |}.

(** [callback->Clear()]. *)
Definition ClearCallback (w : World) (callback : DartPersistentValue) : World :=
  {| codec_alive := codec_alive w; dart_state_alive := dart_state_alive w;
     state_ := state_ w; io_tasks := io_tasks w; ui_tasks := ui_tasks w;
     invocations := invocations w; cleared := cleared w ++ [callback] |}.

(** The UI thread runs the task at the head of its queue. *)
Definition run_ui_task (w : World) : World :=
  match ui_tasks w with
  | [] => w
  | InvokeNextFrameCallbackTask image duration decode_error callback :: rest =>
      InvokeNextFrameCallback (set_ui_tasks w rest) image duration decode_error callback
  | ClearCallbackTask callback :: rest =>
      ClearCallback (set_ui_tasks w rest) callback
  end.

(** [MultiFrameCodec::~MultiFrameCodec]: the codec drops [state_]. *)
Definition release_codec (w : World) : World :=
  {| codec_alive := false; dart_state_alive := dart_state_alive w;
     state_ := state_ w; io_tasks := io_tasks w; ui_tasks := ui_tasks w;
     invocations := invocations w; cleared := cleared w |}.

Definition shutdown_dart_state (w : World) : World :=
  {| codec_alive := codec_alive w; dart_state_alive := false;
     state_ := state_ w; io_tasks := io_tasks w; ui_tasks := ui_tasks w;
     invocations := invocations w; cleared := cleared w |}.

(** [MultiFrameCodec::MultiFrameCodec]. *)
Definition MultiFrameCodec_new (impeller : bool) : World :=
  {| codec_alive := true; dart_state_alive := true;
     state_ := State_new generator_ impeller;
     io_tasks := []; ui_tasks := []; invocations := []; cleared := [] |}.

(** [MultiFrameCodec::frameCount] and [MultiFrameCodec::repetitionCount]. *)
Definition frameCount (w : World) : Z := frameCount_ (state_ w).
Definition repetitionCount (w : World) : Z := repetitionCount_ (state_ w).

(** What can happen next: a call from Dart, the collection of the codec,
    the end of the isolate, or either thread running its next task. *)
Inductive Event :=
| CallGetNextFrame (callback_handle : Dart_Handle)
| ReleaseCodec
| ShutdownDartState
| RunIOTask (alloc_ok : bool)
| RunUITask.

Definition step (w : World) (e : Event) : World :=
  match e with
  | CallGetNextFrame h => if codec_alive w then fst (getNextFrame w h) else w
  | ReleaseCodec => release_codec w
  | ShutdownDartState => shutdown_dart_state w
  | RunIOTask alloc_ok => run_io_task alloc_ok w
  | RunUITask => run_ui_task w
  end.

Definition run (es : list Event) (w : World) : World := fold_left step es w.

(** One request served to completion before anything else happens: the
    call, the decode, the decode callback, and the delivery. *)
Definition serve (w : World) (req : Dart_Handle * bool) : World :=
  run [CallGetNextFrame (fst req); RunIOTask (snd req); RunIOTask (snd req); RunUITask] w.

Definition serve_all (reqs : list (Dart_Handle * bool)) (w : World) : World :=
  fold_left serve reqs w.

End Pipeline.

(** Nothing is queued and the codec is alive: where a request that is
    served to completion starts and ends. *)
Definition quiescent (w : World) : Prop :=
  codec_alive w = true /\ io_tasks w = [] /\ ui_tasks w = [].

(** The cursor is a frame index of a source with [fc] frames. *)
Definition cursor_ok (fc : Z) (s : State) : Prop :=
  frameCount_ s = fc /\ 0 <= nextFrameIndex_ s < fc.

(** The delivery [getNextFrame] posts for a source without frames. *)
Definition no_frame_delivery (t : UITask) : Prop :=
  exists cb,
    t = InvokeNextFrameCallbackTask None 0 "Could not provide any frame." cb.

Definition empty_invocation (i : DartInvocation) : Prop :=
  inv_image i = None /\ inv_duration i = 0 /\ inv_decode_error i <> EmptyString.

(** What holds of every world of a codec without frames, created in state
    [s0]: the state is still [s0], the IO runner has nothing to do, and
    all that is queued or was delivered is the no-frame error. *)
Definition idle (s0 : State) (w : World) : Prop :=
  state_ w = s0 /\ io_tasks w = [] /\
  Forall no_frame_delivery (ui_tasks w) /\
  Forall empty_invocation (invocations w) /\
  cleared w = [].

(** ** Vocabulary of the pipeline properties *)

(** A generator that decodes in place: the buffer it leaves has the size
    of the buffer it was given. *)
Definition decodes_in_place (gen : ImageGenerator) : Prop :=
  forall info buffer frame prior px,
    GetPixels gen info buffer frame prior = Some px -> length px = length buffer.

Definition task_callback (t : IOTask) : DartPersistentValue :=
  match t with
  | GetNextFrameTask callback => callback
  | DecodedTask callback _ _ => callback
  end.

Definition is_clear (t : UITask) : bool :=
  match t with ClearCallbackTask _ => true | _ => false end.

(** A delivery without an image has duration 0. *)
Definition task_duration_ok (t : UITask) : Prop :=
  match t with
  | InvokeNextFrameCallbackTask image duration _ _ => image = None -> duration = 0
  | ClearCallbackTask _ => True
  end.

Definition invocation_duration_ok (i : DartInvocation) : Prop :=
  inv_image i = None -> inv_duration i = 0.

Definition ui_task_callback (t : UITask) : DartPersistentValue :=
  match t with
  | InvokeNextFrameCallbackTask _ _ _ callback => callback
  | ClearCallbackTask callback => callback
  end.

(** The callbacks of the requests a run of events lets in, in the order of
    the calls: [getNextFrame] called with a closure while the codec exists. *)
Fixpoint accepted_callbacks (alive : bool) (es : list Event) : list Dart_Handle :=
  match es with
  | [] => []
  | CallGetNextFrame h :: es' =>
      (if alive && Dart_IsClosure h then [h] else []) ++ accepted_callbacks alive es'
  | ReleaseCodec :: es' => accepted_callbacks false es'
  | _ :: es' => accepted_callbacks alive es'
  end.

(** The callbacks a world holds, place by place: those Dart was invoked
    through, those cleared, those of the tasks waiting on the UI runner and
    those of the tasks waiting on the IO runner. *)
Definition accounted_callbacks (w : World) : list Dart_Handle :=
  map inv_callback (invocations w) ++ cleared w
  ++ map ui_task_callback (ui_tasks w) ++ map task_callback (io_tasks w).

(** What [getNextFrame] has delivered to [callback] for a source without
    frames. *)
Definition no_frame_invocation (callback : DartPersistentValue) : DartInvocation :=
  {| inv_callback := callback; inv_image := None; inv_duration := 0;
     inv_decode_error := "Could not provide any frame." |}.

(** What the delivery for the frame at [index] carries: no image and
    duration 0, or an image and that frame's duration as an [int]. *)
Definition delivers_frame (gen : ImageGenerator) (index : Z) (i : DartInvocation)
  : Prop :=
  (inv_image i = None /\ inv_duration i = 0) \/
  (inv_image i <> None /\
   inv_duration i = CInt.to_int (duration (GetFrameInfo gen index))).

(** The deliveries [l] answer the requests [reqs] one for one and in order,
    the first of them for the frame [k mod fc]. *)
Fixpoint delivered_in_order (gen : ImageGenerator) (fc k : Z)
    (reqs : list (Dart_Handle * bool)) (l : list DartInvocation) : Prop :=
  match reqs, l with
  | [], [] => True
  | r :: reqs', i :: l' =>
      inv_callback i = fst r /\ delivers_frame gen (k mod fc) i /\
      delivered_in_order gen fc (k + 1) reqs' l'
  | _, _ => False
  end.

(** ** Sample sources *)

Module Samples.

Definition info2x2 : SkImageInfo :=
  {| width := 2; height := 2; colorType := kRGB_565_SkColorType;
     alphaType := kUnpremul_SkAlphaType |}.

Definition rect_top_left : SkIRect :=
  {| fLeft := 0; fTop := 0; fRight := 1; fBottom := 1 |}.

Definition frame (req : option Z) (d : DisposalMethod) : FrameInfo :=
  {| required_frame := req; duration := 40; disposal_method := d;
     disposal_rect := rect_top_left |}.

Fixpoint paint (i : nat) (v : Z) (buffer : list Z) : list Z :=
  match buffer, i with
  | [], _ => []
  | _ :: t, O => v :: t
  | p :: t, S i' => p :: paint i' v t
  end.

(** A generator over a list of frames: frame [i] draws the colour
    [10 + i] at pixel [i] and leaves the rest of the buffer as it found
    it; the frame [bad] cannot be decoded. *)
Definition generator (frames : list FrameInfo) (plays : Z) (bad : Z)
  : ImageGenerator :=
  {| GetInfo := info2x2;
     GetFrameCount := Z.of_nat (length frames);
     GetPlayCount := plays;
     kInfinitePlayCount := 4294967295;
     GetFrameInfo := fun i => nth (Z.to_nat i) frames (frame None kUnspecified);
     GetPixels := fun _ buffer i _ =>
       if i =? bad then None else Some (paint (Z.to_nat i) (10 + i) buffer) |}.

Definition skia_io : IOManager :=
  {| UploadTextureToShared := fun b => (Some (DlImage_of b), EmptyString);
     DlImageGPU_Make := fun b => Some (DlImage_of b) |}.

(** Frame 0 keeps, frame 1 restores the previous canvas, frame 2 clears
    a rectangle. *)
Definition three_frames : ImageGenerator :=
  generator [frame None kKeep; frame (Some 0) kRestorePrevious;
             frame (Some 1) kRestoreBGColor] 3 (-1).

(** Frame 1 clears a rectangle and frame 2 is drawn over what is left. *)
Definition erase_then_draw : ImageGenerator :=
  generator [frame None kKeep; frame (Some 0) kRestoreBGColor;
             frame (Some 1) kKeep] 0 (-1).

Definition restore_previous_first : ImageGenerator :=
  generator [frame None kRestorePrevious; frame (Some 0) kKeep] 1 (-1).

Definition restore_bg_first : ImageGenerator :=
  generator [frame None kRestoreBGColor; frame (Some 0) kKeep] 1 (-1).

Definition one_frame : ImageGenerator := generator [frame None kKeep] 1 (-1).

Definition undecodable : ImageGenerator := generator [frame None kKeep] 1 0.

Definition no_frames : ImageGenerator := generator [] 1 (-1).

(** A finite play count whose predecessor does not fit an [int]. *)
Definition plays_beyond_int : ImageGenerator :=
  generator [frame None kKeep] 2147483649 (-1).

Definition bitmap_of (px : list Z) : SkBitmap :=
  {| info := decode_info three_frames; pixels := px |}.

End Samples.

(** * Properties *)

(** ** Arithmetic on [int] *)

Lemma to_int_id z : CInt.INT_MIN <= z <= CInt.INT_MAX -> CInt.to_int z = z.
Proof.
  unfold CInt.to_int, CInt.INT_MIN, CInt.INT_MAX. intros H.
  rewrite Z.mod_small by lia. lia.
Qed.

Lemma to_int_range z : CInt.INT_MIN <= CInt.to_int z <= CInt.INT_MAX.
Proof.
  unfold CInt.to_int, CInt.INT_MIN, CInt.INT_MAX.
  pose proof (Z.mod_pos_bound (z + 2147483648) 4294967296 eq_refl). lia.
Qed.

(** ** The sample sources at work *)

Import Samples.

Example decode_info_is_premul_n32 :
  decode_info three_frames =
  {| width := 2; height := 2; colorType := kN32_SkColorType;
     alphaType := kPremul_SkAlphaType |}.
Proof. reflexivity. Qed.

(** A three-frame animation, one request after the other: the retained
    frame is frame 0, then frame 0 again, then frame 2's output, which is
    frame 0's canvas with frame 2 drawn on it. *)
Example three_frames_retained :
  let w0 := MultiFrameCodec_new three_frames false in
  let w1 := serve three_frames skia_io false w0 (Dart_Closure 1, true) in
  let w2 := serve three_frames skia_io false w1 (Dart_Closure 1, true) in
  let w3 := serve three_frames skia_io false w2 (Dart_Closure 1, true) in
  lastRequiredFrame_ (state_ w1) = Some (bitmap_of [10; 0; 0; 0]) /\
  lastRequiredFrame_ (state_ w2) = Some (bitmap_of [10; 0; 0; 0]) /\
  lastRequiredFrame_ (state_ w3) = Some (bitmap_of [10; 0; 12; 0]) /\
  restoreBGColorRect_ (state_ w3) = Some rect_top_left /\
  nextFrameIndex_ (state_ w3) = 0 /\
  map inv_image (invocations w3) =
    [Some (CanvasImage_of (DlImage_of (bitmap_of [10; 0; 0; 0])));
     Some (CanvasImage_of (DlImage_of (bitmap_of [10; 11; 0; 0])));
     Some (CanvasImage_of (DlImage_of (bitmap_of [10; 0; 12; 0])))].
Proof. vm_compute. repeat split; reflexivity. Qed.

(** ** DecodeImage, case by case *)

Section DecodeImageFacts.

Variable gen : ImageGenerator.

(** The bitmap the generator is asked to decode into. *)
Let prepared (s : State) : SkBitmap :=
  prepare_bitmap s (GetFrameInfo gen (nextFrameIndex_ s)) (allocPixels (decode_info gen)).

Lemma DecodeImage_success alloc_ok s s' out err :
  DecodeImage gen alloc_ok s = (s', (Some out, err)) ->
  alloc_ok = true /\ err = EmptyString /\
  info out = decode_info gen /\
  GetPixels gen (decode_info gen) (pixels (prepared s)) (nextFrameIndex_ s)
    (requiredFrameIndex (GetFrameInfo gen (nextFrameIndex_ s))) = Some (pixels out) /\
  s' = retain_frame s (GetFrameInfo gen (nextFrameIndex_ s)) out.
Proof.
  unfold DecodeImage, prepared. destruct alloc_ok; cbn [negb].
  - destruct (GetPixels gen _ _ _ _) as [px|] eqn:E; intros H;
      inversion H; subst; cbn; auto.
  - intros H. inversion H.
Qed.

Lemma DecodeImage_failure alloc_ok s s' err :
  DecodeImage gen alloc_ok s = (s', (None, err)) ->
  s' = s /\ err <> EmptyString /\
  (alloc_ok = false \/
   GetPixels gen (decode_info gen) (pixels (prepared s)) (nextFrameIndex_ s)
     (requiredFrameIndex (GetFrameInfo gen (nextFrameIndex_ s))) = None).
Proof.
  unfold DecodeImage, prepared. destruct alloc_ok; cbn [negb].
  - destruct (GetPixels gen _ _ _ _) as [px|] eqn:E; intros H;
      inversion H; subst.
    repeat split; auto. discriminate.
  - intros H. inversion H; subst. repeat split; auto. discriminate.
Qed.

Lemma retain_frame_fixed s fi b :
  frameCount_ (retain_frame s fi b) = frameCount_ s /\
  repetitionCount_ (retain_frame s fi b) = repetitionCount_ s /\
  is_impeller_enabled_ (retain_frame s fi b) = is_impeller_enabled_ s /\
  nextFrameIndex_ (retain_frame s fi b) = nextFrameIndex_ s.
Proof.
  unfold retain_frame.
  destruct (_ || _), (DisposalMethod_eqb (disposal_method fi) kRestoreBGColor);
    cbn; auto.
Qed.

Lemma DecodeImage_fixed alloc_ok s :
  let s' := fst (DecodeImage gen alloc_ok s) in
  frameCount_ s' = frameCount_ s /\
  repetitionCount_ s' = repetitionCount_ s /\
  is_impeller_enabled_ s' = is_impeller_enabled_ s /\
  nextFrameIndex_ s' = nextFrameIndex_ s.
Proof.
  unfold DecodeImage. destruct alloc_ok; cbn [negb]; [|cbn; auto].
  destruct (GetPixels gen _ _ _ _); cbn [fst]; [apply retain_frame_fixed | auto].
Qed.

Lemma DisposalMethod_eqb_eq a b : DisposalMethod_eqb a b = true <-> a = b.
Proof. destruct a, b; cbn; split; congruence. Qed.

Lemma lastRequiredFrame_retain s fi b :
  lastRequiredFrame_ (retain_frame s fi b) =
  if DisposalMethod_eqb (disposal_method fi) kKeep
     || (has_value (lastRequiredFrame_ s)
         && negb (DisposalMethod_eqb (disposal_method fi) kRestorePrevious))
  then Some b else lastRequiredFrame_ s.
Proof.
  unfold retain_frame.
  destruct (_ || _), (DisposalMethod_eqb (disposal_method fi) kRestoreBGColor);
    reflexivity.
Qed.

Lemma restoreBGColorRect_retain s fi b :
  restoreBGColorRect_ (retain_frame s fi b) =
  if DisposalMethod_eqb (disposal_method fi) kRestoreBGColor
  then Some (disposal_rect fi) else None.
Proof.
  unfold retain_frame.
  destruct (_ || _), (DisposalMethod_eqb (disposal_method fi) kRestoreBGColor);
    reflexivity.
Qed.

End DecodeImageFacts.

(** ** What is retained after a decode *)

(** C1, at its failing input: the first frame of [restore_previous_first]
    has disposal method RestorePrevious and nothing is retained yet; the
    decode succeeds and delivers the composited frame, yet the state keeps
    no retained frame, where the comment in [DecodeImage] promises the Keep
    behaviour. *)
Theorem C1_restore_previous_first_frame_not_retained :
  let s0 := State_new restore_previous_first false in
  lastRequiredFrame_ s0 = None /\
  disposal_method (GetFrameInfo restore_previous_first (nextFrameIndex_ s0))
    = kRestorePrevious /\
  snd (DecodeImage restore_previous_first true s0)
    = (Some (bitmap_of [10; 0; 0; 0]), EmptyString) /\
  lastRequiredFrame_ (fst (DecodeImage restore_previous_first true s0)) = None.
Proof. vm_compute. repeat split; reflexivity. Qed.

(** C2: after a successful decode the retained frame is the frame just
    composited exactly when the disposal method is Keep, or a retained frame
    existed and the method is not RestorePrevious; otherwise it is the one
    retained before, and so RestorePrevious over an existing retained frame
    changes nothing. *)
Theorem C2_retained_frame_update (gen : ImageGenerator) (alloc_ok : bool)
    (s s' : State) (out : SkBitmap) (err : string)
    (Hdecoded : DecodeImage gen alloc_ok s = (s', (Some out, err))) :
  let disposal := disposal_method (GetFrameInfo gen (nextFrameIndex_ s)) in
  (disposal = kKeep \/
   (lastRequiredFrame_ s <> None /\ disposal <> kRestorePrevious) ->
   lastRequiredFrame_ s' = Some out) /\
  (~ (disposal = kKeep \/
      (lastRequiredFrame_ s <> None /\ disposal <> kRestorePrevious)) ->
   lastRequiredFrame_ s' = lastRequiredFrame_ s) /\
  (disposal = kRestorePrevious -> lastRequiredFrame_ s <> None ->
   lastRequiredFrame_ s' = lastRequiredFrame_ s).
Proof.
  apply DecodeImage_success in Hdecoded.
  destruct Hdecoded as (_ & _ & _ & _ & ->).
  cbv zeta. rewrite lastRequiredFrame_retain.
  destruct (disposal_method (GetFrameInfo gen (nextFrameIndex_ s))) eqn:D,
    (lastRequiredFrame_ s) eqn:L; cbn; repeat split; intros;
    try reflexivity; try congruence; intuition congruence.
Qed.

Lemma C2_retained_frame_update_witness :
  let s0 := State_new three_frames false in
  let r1 := DecodeImage three_frames true s0 in
  lastRequiredFrame_ (fst r1) = Some (bitmap_of [10; 0; 0; 0]).
Proof.
  cbv zeta.
  refine (proj1 (C2_retained_frame_update three_frames true
            (State_new three_frames false) _ (bitmap_of [10; 0; 0; 0]) EmptyString _) _).
  - reflexivity.
  - left. reflexivity.
Defined.

(** ** Bitmaps *)

Lemma map_index_length {A} (f : nat -> A -> A) l : forall i,
  length (map_index f i l) = length l.
Proof. induction l as [|a l IH]; intros i; cbn; [reflexivity | now rewrite IH]. Qed.

Lemma nth_map_index {A} (f : nat -> A -> A) (d : A) l : forall i k,
  (k < length l)%nat -> nth k (map_index f i l) d = f (i + k)%nat (nth k l d).
Proof.
  induction l as [|a l IH]; intros i k Hk; cbn in Hk; [lia|].
  destruct k as [|k]; cbn.
  - now rewrite Nat.add_0_r.
  - rewrite IH by lia. f_equal. lia.
Qed.

Lemma info_update_pixels f b : info (update_pixels f b) = info b.
Proof. reflexivity. Qed.

Lemma well_formed_update_pixels f b : well_formed b -> well_formed (update_pixels f b).
Proof.
  unfold well_formed. cbn [update_pixels info pixels].
  now rewrite map_index_length.
Qed.

Lemma well_formed_allocPixels i :
  0 <= width i -> 0 <= height i -> well_formed (allocPixels i).
Proof.
  intros Hw Hh. unfold well_formed, allocPixels. cbn [info pixels].
  rewrite repeat_length. repeat split; try assumption.
  rewrite Z2Nat.id; [reflexivity | now apply Z.mul_nonneg_nonneg].
Qed.

(** Row-major addressing: inside the geometry, a point and its index
    determine each other. *)
Lemma point_index w h x y :
  0 <= x < w -> 0 <= y < h ->
  0 <= y * w + x < w * h /\ (y * w + x) mod w = x /\ (y * w + x) / w = y.
Proof.
  intros Hx Hy. repeat split.
  - nia.
  - nia.
  - rewrite Z.add_comm, Z.mod_add by lia. now apply Z.mod_small.
  - rewrite Z.add_comm, Z.div_add by lia. rewrite Z.div_small by lia. lia.
Qed.

Lemma index_point w h i :
  0 <= w -> 0 <= i < w * h ->
  0 <= i mod w < w /\ 0 <= i / w < h /\ (i / w) * w + i mod w = i.
Proof.
  intros Hw Hi.
  assert (0 < w)
    by (destruct (Z.eq_dec w 0) as [->|]; [rewrite Z.mul_0_l in Hi; lia | lia]).
  repeat split.
  - apply Z.mod_pos_bound; lia.
  - apply Z.mod_pos_bound; lia.
  - apply Z.div_pos; lia.
  - apply Z.div_lt_upper_bound; lia.
  - pose proof (Z.div_mod i w). lia.
Qed.

Lemma in_bounds_iff b x y :
  in_bounds b x y = true <->
  0 <= x < width (info b) /\ 0 <= y < height (info b).
Proof. unfold in_bounds. rewrite !andb_true_iff. lia. Qed.

Lemma getPixel_update_pixels f b x y :
  well_formed b -> in_bounds b x y = true ->
  getPixel (update_pixels f b) x y = f x y (getPixel b x y).
Proof.
  intros (Hw & Hh & Hlen) Hin. apply in_bounds_iff in Hin. destruct Hin as [Hx Hy].
  destruct (point_index _ _ _ _ Hx Hy) as (Hi & Hm & Hd).
  unfold getPixel, update_pixels. cbn [info pixels].
  rewrite nth_map_index by lia.
  cbn [Nat.add]. rewrite Z2Nat.id by lia. now rewrite Hm, Hd.
Qed.

(** Copying a bitmap over a fresh one of the same geometry yields it. *)
Lemma writePixels_same_geometry last :
  well_formed last -> writePixels (allocPixels (info last)) last = last.
Proof.
  intros (Hw & Hh & Hlen). destruct last as [i px]. cbn [info pixels] in *.
  unfold writePixels, update_pixels, allocPixels. cbn [info pixels]. f_equal.
  apply nth_ext with (d := 0) (d' := 0).
  - rewrite map_index_length, repeat_length. lia.
  - intros k Hk. rewrite map_index_length, repeat_length in Hk.
    rewrite nth_map_index by (rewrite repeat_length; lia). cbn [Nat.add].
    assert (Hi : 0 <= Z.of_nat k < width i * height i) by lia.
    destruct (index_point _ _ _ Hw Hi) as (Hx & Hy & Hk').
    replace (in_bounds _ _ _) with true
      by (symmetry; apply in_bounds_iff; cbn [info]; lia).
    unfold getPixel. cbn [info pixels]. rewrite Hk'. now rewrite Nat2Z.id.
Qed.

Lemma getPixel_erase c rect b x y :
  well_formed b -> in_bounds b x y = true ->
  getPixel (erase c rect b) x y = if contains rect x y then c else getPixel b x y.
Proof. intros Hwf Hin. unfold erase. now rewrite getPixel_update_pixels. Qed.

Lemma allocPixels_blank i : Forall (eq SK_ColorTRANSPARENT) (pixels (allocPixels i)).
Proof.
  unfold allocPixels. cbn [pixels]. apply Forall_forall. intros p Hp.
  apply repeat_spec in Hp. now subst.
Qed.

(** ** The bitmap handed to the generator *)

(** A required frame of 2^32 - 1 is [kNoFrame] once it is an [int]: such a
    frame is decoded into the blank bitmap even when a frame is retained. *)
Example required_frame_all_ones_is_no_frame :
  let fi := {| required_frame := Some 4294967295; duration := 40;
               disposal_method := kKeep; disposal_rect := rect_top_left |} in
  let s := set_lastRequiredFrame (State_new three_frames false)
             (Some (bitmap_of [10; 0; 0; 0])) in
  requiredFrameIndex fi = kNoFrame /\
  prepare_bitmap s fi (allocPixels (decode_info three_frames)) = bitmap_of [0; 0; 0; 0].
Proof. split; reflexivity. Qed.

(** C3: for a frame that names a required frame (one that, as the [int]
    the code holds it in, is not [kNoFrame]), the bitmap the generator
    decodes into is, when a frame is retained, the retained frame's pixels
    with the pending rectangle (if any) made transparent afterwards, and,
    when none is retained, the blank bitmap just allocated; in both cases it
    is the generator's verdict on that bitmap that decides the decode. *)
Theorem C3_prepared_bitmap (gen : ImageGenerator) (s : State) (r : Z) :
  let fi := GetFrameInfo gen (nextFrameIndex_ s) in
  let fresh := allocPixels (decode_info gen) in
  let buf := prepare_bitmap s fi fresh in
  required_frame fi = Some r -> CInt.to_int r <> kNoFrame ->
  (forall last, lastRequiredFrame_ s = Some last ->
     info last = decode_info gen -> well_formed last ->
     (restoreBGColorRect_ s = None -> buf = last) /\
     (forall rect, restoreBGColorRect_ s = Some rect ->
        buf = erase SK_ColorTRANSPARENT rect (writePixels fresh last) /\
        info buf = info last /\
        forall x y, in_bounds last x y = true ->
          getPixel buf x y =
          if contains rect x y then SK_ColorTRANSPARENT else getPixel last x y)) /\
  (lastRequiredFrame_ s = None ->
     buf = fresh /\ Forall (eq SK_ColorTRANSPARENT) (pixels buf)) /\
  fst (snd (DecodeImage gen true s)) =
    option_map (fun px => {| info := decode_info gen; pixels := px |})
      (GetPixels gen (decode_info gen) (pixels buf) (nextFrameIndex_ s) (CInt.to_int r)).
Proof.
  intros fi fresh buf Hreq Hr.
  assert (Hidx : requiredFrameIndex fi = CInt.to_int r)
    by (unfold requiredFrameIndex; now rewrite Hreq).
  assert (Hne : negb (requiredFrameIndex fi =? kNoFrame) = true).
  { rewrite Hidx. apply negb_true_iff. now apply Z.eqb_neq. }
  assert (Hcopy : forall last, info last = decode_info gen -> well_formed last ->
                          writePixels fresh last = last).
  { intros last Hinfo Hwf. subst fresh. rewrite <- Hinfo.
    now apply writePixels_same_geometry. }
  split; [|split].
  - intros last Hlast Hinfo Hwf.
    assert (Hbuf : buf = match restoreBGColorRect_ s with
                         | Some rect => erase SK_ColorTRANSPARENT rect (writePixels fresh last)
                         | None => writePixels fresh last
                         end).
    { subst buf. unfold prepare_bitmap. now rewrite Hne, Hlast. }
    split.
    + intros Hrect. rewrite Hbuf, Hrect. now apply Hcopy.
    + intros rect Hrect. rewrite Hbuf, Hrect. split; [reflexivity|].
      rewrite Hcopy by assumption. split; [reflexivity|].
      intros x y Hin. now apply getPixel_erase.
  - intros Hnone.
    assert (Hbuf : buf = fresh).
    { subst buf. unfold prepare_bitmap. now rewrite Hne, Hnone. }
    split; [assumption|]. rewrite Hbuf. apply allocPixels_blank.
  - unfold DecodeImage. cbn [negb]. fold fi. fold fresh. fold buf. rewrite Hidx.
    destruct (GetPixels gen _ _ _ _); reflexivity.
Qed.

Lemma C3_prepared_bitmap_witness :
  let s2 := fst (DecodeImage erase_then_draw true
                   (set_nextFrameIndex
                      (fst (DecodeImage erase_then_draw true
                              (State_new erase_then_draw false))) 1)) in
  let s := set_nextFrameIndex s2 2 in
  lastRequiredFrame_ s = Some (bitmap_of [10; 11; 0; 0]) /\
  restoreBGColorRect_ s = Some rect_top_left /\
  prepare_bitmap s (GetFrameInfo erase_then_draw 2)
    (allocPixels (decode_info erase_then_draw)) = bitmap_of [0; 11; 0; 0].
Proof.
  cbv zeta. split; [reflexivity | split; [reflexivity|]].
  set (s := set_nextFrameIndex _ 2).
  assert (H1 : required_frame (GetFrameInfo erase_then_draw (nextFrameIndex_ s)) = Some 1)
    by reflexivity.
  assert (H2 : CInt.to_int 1 <> kNoFrame) by discriminate.
  assert (Hwf : well_formed (bitmap_of [10; 11; 0; 0]))
    by (unfold well_formed; cbn; lia).
  destruct (C3_prepared_bitmap erase_then_draw s 1 H1 H2) as (Hsome & _ & _).
  destruct (Hsome (bitmap_of [10; 11; 0; 0]) eq_refl eq_refl Hwf) as (_ & Hrect).
  destruct (Hrect rect_top_left eq_refl) as (Hbuf & _ & _).
  change (nextFrameIndex_ s) with 2 in Hbuf.
  rewrite Hbuf. reflexivity.
Defined.

(** ** The task runners, step by step *)

Section PipelineFacts.

Variable gen : ImageGenerator.
Variable io : IOManager.
Variable impeller_built : bool.

Local Abbreviation io_step := (run_io_task gen io impeller_built).
Local Abbreviation exec_step := (step gen io impeller_built).
Local Abbreviation exec := (run gen io impeller_built).
Local Abbreviation on_decoded := (decode_callback gen io impeller_built).

Lemma OnGetImageAndInvokeCallback_state s dl err cb :
  fst (OnGetImageAndInvokeCallback gen s dl err cb) = advance s.
Proof. reflexivity. Qed.

Lemma decode_callback_state s bm err cb : fst (on_decoded s bm err cb) = advance s.
Proof.
  unfold decode_callback. destruct bm as [b|].
  - destruct (GetNextFrameImage io impeller_built s b). reflexivity.
  - reflexivity.
Qed.

Lemma decode_callback_failed s err cb :
  on_decoded s None err cb = (advance s, InvokeNextFrameCallbackTask None 0 err cb).
Proof. reflexivity. Qed.

Lemma run_io_task_decode alloc_ok w cb rest :
  io_tasks w = GetNextFrameTask cb :: rest ->
  weak_state_lock (set_io_tasks w rest) = true ->
  io_step alloc_ok w =
  post_io (set_state (set_io_tasks w rest) (fst (DecodeImage gen alloc_ok (state_ w))))
    (DecodedTask cb (fst (snd (DecodeImage gen alloc_ok (state_ w))))
       (snd (snd (DecodeImage gen alloc_ok (state_ w))))).
Proof.
  intros Hq Hlock. unfold run_io_task. rewrite Hq, Hlock.
  unfold GetNextFrameAndInvokeCallback. cbn [state_ set_io_tasks].
  destruct (DecodeImage gen alloc_ok (state_ w)) as [s [bm err]]. reflexivity.
Qed.

Lemma run_io_task_torn_down alloc_ok w cb rest :
  io_tasks w = GetNextFrameTask cb :: rest ->
  weak_state_lock (set_io_tasks w rest) = false ->
  io_step alloc_ok w = post_ui (set_io_tasks w rest) (ClearCallbackTask cb).
Proof. intros Hq Hlock. unfold run_io_task. now rewrite Hq, Hlock. Qed.

Lemma run_io_task_decoded alloc_ok w cb bm err rest :
  io_tasks w = DecodedTask cb bm err :: rest ->
  io_step alloc_ok w =
  post_ui (set_state (set_io_tasks w rest) (advance (state_ w)))
    (snd (on_decoded (state_ w) bm err cb)).
Proof.
  intros Hq. unfold run_io_task. rewrite Hq. cbn [state_ set_io_tasks].
  rewrite <- (decode_callback_state (state_ w) bm err cb).
  destruct (on_decoded (state_ w) bm err cb). reflexivity.
Qed.

Lemma run_app es1 es2 w : exec (es1 ++ es2) w = exec es2 (exec es1 w).
Proof. apply fold_left_app. Qed.

(** A step leaves the state alone, decodes into it, or advances the cursor. *)
Lemma step_state w e :
  state_ (exec_step w e) = state_ w \/
  (exists alloc_ok, state_ (exec_step w e) = fst (DecodeImage gen alloc_ok (state_ w))) \/
  state_ (exec_step w e) = advance (state_ w).
Proof.
  destruct e as [h| | |alloc_ok|]; cbn [step].
  - left. unfold getNextFrame.
    destruct (codec_alive w), (negb (Dart_IsClosure h)), (frameCount_ (state_ w) =? 0);
      reflexivity.
  - left. reflexivity.
  - left. reflexivity.
  - destruct (io_tasks w) as [|[cb|cb bm err] rest] eqn:Hq.
    + left. unfold run_io_task. now rewrite Hq.
    + destruct (weak_state_lock (set_io_tasks w rest)) eqn:Hlock.
      * right. left. exists alloc_ok.
        now rewrite (run_io_task_decode _ _ _ _ Hq Hlock).
      * left. now rewrite (run_io_task_torn_down _ _ _ _ Hq Hlock).
    + right. right. now rewrite (run_io_task_decoded _ _ _ _ _ _ Hq).
  - left. unfold run_ui_task.
    destruct (ui_tasks w) as [|[im d err cb|cb] rest]; [reflexivity| |reflexivity].
    unfold InvokeNextFrameCallback. cbn [set_ui_tasks dart_state_alive].
    destruct (negb (dart_state_alive w)); reflexivity.
Qed.

(** A property of the state kept by decoding and by advancing the cursor
    holds along every execution. *)
Lemma run_state_invariant (P : State -> Prop) :
  (forall alloc_ok s, P s -> P (fst (DecodeImage gen alloc_ok s))) ->
  (forall s, P s -> P (advance s)) ->
  forall es w, P (state_ w) -> P (state_ (exec es w)).
Proof.
  intros Hdec Hadv es. induction es as [|e es IH]; intros w Hw; [exact Hw|].
  cbn [run fold_left]. apply IH.
  destruct (step_state w e) as [-> | [[a ->] | ->]]; auto.
Qed.

Lemma retained_after_decode alloc_ok s :
  lastRequiredFrame_ s <> None ->
  lastRequiredFrame_ (fst (DecodeImage gen alloc_ok s)) <> None.
Proof.
  intros Hs. destruct (DecodeImage gen alloc_ok s) as [s' [[out|] err]] eqn:E.
  - apply DecodeImage_success in E. destruct E as (_ & _ & _ & _ & ->).
    cbn [fst]. rewrite lastRequiredFrame_retain. destruct (_ || _); congruence.
  - apply DecodeImage_failure in E. destruct E as (-> & _). exact Hs.
Qed.

Lemma retained_persists es w :
  lastRequiredFrame_ (state_ w) <> None ->
  lastRequiredFrame_ (state_ (exec es w)) <> None.
Proof.
  apply (run_state_invariant (fun s => lastRequiredFrame_ s <> None)).
  - intros a s. apply retained_after_decode.
  - intros s Hs. exact Hs.
Qed.

End PipelineFacts.

(** ** The pending rectangle and the retained frame *)

(** C5, as stated, fails after a first frame whose disposal method is
    RestoreBGColor: the rectangle is pending and nothing is retained. *)
Lemma C5_counterexample :
  let w := serve restore_bg_first skia_io false
             (MultiFrameCodec_new restore_bg_first false) (Dart_Closure 1, true) in
  restoreBGColorRect_ (state_ w) = Some rect_top_left /\
  lastRequiredFrame_ (state_ w) = None /\
  ~ (restoreBGColorRect_ (state_ w) <> None -> lastRequiredFrame_ (state_ w) <> None).
Proof.
  cbv zeta. split; [reflexivity | split; [reflexivity|]].
  intros H. apply H; [discriminate | reflexivity].
Qed.

(** C5, amended: from a state with a retained frame on, every execution
    keeps a retained frame, so there a pending rectangle comes with one; a
    successful decode of a Keep frame leads to such a state; and while
    nothing is retained the pending rectangle does not reach the bitmap
    prepared for the next decode. *)
Theorem C5_pending_rect_with_retained_frame
    (gen : ImageGenerator) (io : IOManager) (impeller_built : bool) :
  (forall w es,
     lastRequiredFrame_ (state_ w) <> None ->
     restoreBGColorRect_ (state_ (run gen io impeller_built es w)) <> None ->
     lastRequiredFrame_ (state_ (run gen io impeller_built es w)) <> None) /\
  (forall alloc_ok s s' out err,
     DecodeImage gen alloc_ok s = (s', (Some out, err)) ->
     disposal_method (GetFrameInfo gen (nextFrameIndex_ s)) = kKeep ->
     lastRequiredFrame_ s' = Some out) /\
  (forall s fi b rect,
     lastRequiredFrame_ s = None ->
     prepare_bitmap (set_restoreBGColorRect s rect) fi b = prepare_bitmap s fi b).
Proof.
  split; [|split].
  - intros w es Hretained _. now apply retained_persists.
  - intros alloc_ok s s' out err Hdec Hkeep.
    apply DecodeImage_success in Hdec. destruct Hdec as (_ & _ & _ & _ & ->).
    rewrite lastRequiredFrame_retain, Hkeep. reflexivity.
  - intros s fi b rect Hnone. unfold prepare_bitmap.
    cbn [lastRequiredFrame_ set_restoreBGColorRect]. now rewrite Hnone.
Qed.

Lemma C5_pending_rect_with_retained_frame_witness :
  let w1 := serve erase_then_draw skia_io false
              (MultiFrameCodec_new erase_then_draw false) (Dart_Closure 1, true) in
  let w2 := run erase_then_draw skia_io false
              [CallGetNextFrame (Dart_Closure 2); RunIOTask true] w1 in
  restoreBGColorRect_ (state_ w2) = Some rect_top_left /\
  lastRequiredFrame_ (state_ w2) <> None.
Proof.
  cbv zeta. split; [reflexivity|].
  apply (proj1 (C5_pending_rect_with_retained_frame erase_then_draw skia_io false)).
  - discriminate.
  - discriminate.
Defined.

(** ** Failed decodes *)

Lemma DecodeImage_fails gen alloc_ok s :
  alloc_ok = false \/
  GetPixels gen (decode_info gen)
    (pixels (prepare_bitmap s (GetFrameInfo gen (nextFrameIndex_ s))
               (allocPixels (decode_info gen))))
    (nextFrameIndex_ s)
    (requiredFrameIndex (GetFrameInfo gen (nextFrameIndex_ s))) = None ->
  exists err, err <> EmptyString /\ DecodeImage gen alloc_ok s = (s, (None, err)).
Proof.
  intros Hfail. unfold DecodeImage. destruct alloc_ok; cbn [negb].
  - destruct Hfail as [Hfail|Hfail]; [discriminate|]. rewrite Hfail.
    eexists. split; [|reflexivity]. discriminate.
  - eexists. split; [|reflexivity]. discriminate.
Qed.

(** C6: when the allocation or the generator's decode fails, the decode
    step leaves the whole state as it was and hands a non-empty error and
    no bitmap to the decode callback; the decode callback posts the delivery
    of no image, duration 0 and that error, and changes neither the retained
    frame nor the pending rectangle; the delivery invokes the Dart callback
    with exactly these. *)
Theorem C6_failed_decode_reported_state_kept
    (gen : ImageGenerator) (io : IOManager) (impeller_built : bool)
    (alloc_ok : bool) (w : World) (cb : DartPersistentValue) (rest : list IOTask)
    (Hqueue : io_tasks w = GetNextFrameTask cb :: rest)
    (Hlock : weak_state_lock (set_io_tasks w rest) = true)
    (Hfail : alloc_ok = false \/
             GetPixels gen (decode_info gen)
               (pixels (prepare_bitmap (state_ w)
                          (GetFrameInfo gen (nextFrameIndex_ (state_ w)))
                          (allocPixels (decode_info gen))))
               (nextFrameIndex_ (state_ w))
               (requiredFrameIndex (GetFrameInfo gen (nextFrameIndex_ (state_ w))))
             = None) :
  exists err, err <> EmptyString /\
    run_io_task gen io impeller_built alloc_ok w
      = post_io (set_io_tasks w rest) (DecodedTask cb None err) /\
    (forall a1 w1 rest1,
       io_tasks w1 = DecodedTask cb None err :: rest1 ->
       let w2 := run_io_task gen io impeller_built a1 w1 in
       ui_tasks w2 = ui_tasks w1 ++ [InvokeNextFrameCallbackTask None 0 err cb] /\
       lastRequiredFrame_ (state_ w2) = lastRequiredFrame_ (state_ w1) /\
       restoreBGColorRect_ (state_ w2) = restoreBGColorRect_ (state_ w1)) /\
    (forall w3 rest3,
       ui_tasks w3 = InvokeNextFrameCallbackTask None 0 err cb :: rest3 ->
       dart_state_alive w3 = true ->
       invocations (run_ui_task w3) =
       invocations w3 ++ [{| inv_callback := cb; inv_image := None;
                             inv_duration := 0; inv_decode_error := err |}]).
Proof.
  destruct (DecodeImage_fails gen alloc_ok (state_ w) Hfail) as (err & Herr & Hdec).
  exists err. split; [exact Herr|]. split; [|split].
  - rewrite (run_io_task_decode gen io impeller_built _ _ _ _ Hqueue Hlock), Hdec.
    reflexivity.
  - intros a1 w1 rest1 Hq1. cbv zeta.
    rewrite (run_io_task_decoded gen io impeller_built _ _ _ _ _ _ Hq1).
    rewrite decode_callback_failed. repeat split.
  - intros w3 rest3 Hq3 Halive. unfold run_ui_task, InvokeNextFrameCallback.
    rewrite Hq3. cbn [dart_state_alive set_ui_tasks]. rewrite Halive. reflexivity.
Qed.

Lemma C6_failed_decode_reported_state_kept_witness :
  let w := fst (getNextFrame
                  (MultiFrameCodec_new undecodable false) (Dart_Closure 7)) in
  exists err, err <> EmptyString /\
    run_io_task undecodable skia_io false true w
      = post_io (set_io_tasks w []) (DecodedTask (Dart_Closure 7) None err).
Proof.
  cbv zeta.
  destruct (C6_failed_decode_reported_state_kept undecodable skia_io false true
              (fst (getNextFrame (MultiFrameCodec_new undecodable false) (Dart_Closure 7)))
              (Dart_Closure 7) [] eq_refl eq_refl (or_intror eq_refl))
    as (err & Herr & Hrun & _).
  exists err. split; assumption.
Defined.

(** ** The cursor *)

Lemma advance_index n fc :
  0 <= n < fc -> fc <= CInt.INT_MAX ->
  CInt.rem (CInt.add n 1) fc = (n + 1) mod fc.
Proof.
  intros Hn Hfc. unfold CInt.rem, CInt.add.
  rewrite to_int_id by (unfold CInt.INT_MIN, CInt.INT_MAX in *; lia).
  apply Z.rem_mod_nonneg; lia.
Qed.

Section CursorFacts.

Variable gen : ImageGenerator.
Variable io : IOManager.
Variable impeller_built : bool.
Variable fc : Z.
Hypothesis fc_pos : 0 < fc.
Hypothesis fc_int : fc <= CInt.INT_MAX.

Lemma cursor_ok_decode alloc_ok s :
  cursor_ok fc s -> cursor_ok fc (fst (DecodeImage gen alloc_ok s)).
Proof.
  unfold cursor_ok. destruct (DecodeImage_fixed gen alloc_ok s) as (-> & _ & _ & ->).
  trivial.
Qed.

Lemma cursor_ok_advance s :
  cursor_ok fc s ->
  cursor_ok fc (advance s) /\ nextFrameIndex_ (advance s) = (nextFrameIndex_ s + 1) mod fc.
Proof.
  intros [Hfc Hn]. unfold cursor_ok, advance. cbn [frameCount_ nextFrameIndex_ set_nextFrameIndex].
  rewrite Hfc, advance_index by assumption.
  pose proof (Z.mod_pos_bound (nextFrameIndex_ s + 1) fc fc_pos). auto.
Qed.

Lemma cursor_ok_run es w :
  cursor_ok fc (state_ w) -> cursor_ok fc (state_ (run gen io impeller_built es w)).
Proof.
  apply (run_state_invariant gen io impeller_built (cursor_ok fc)).
  - intros a s. apply cursor_ok_decode.
  - intros s Hs. now apply cursor_ok_advance.
Qed.

(** A request served from a quiescent world: one decode, one advance. *)
Lemma serve_quiescent w id alloc_ok :
  quiescent w -> cursor_ok fc (state_ w) ->
  let w' := serve gen io impeller_built w (Dart_Closure id, alloc_ok) in
  quiescent w' /\
  state_ w' = advance (fst (DecodeImage gen alloc_ok (state_ w))).
Proof.
  destruct w as [alive dart s ioq uiq inv clr]. unfold quiescent.
  cbn [codec_alive io_tasks ui_tasks state_].
  intros (-> & -> & ->) [Hfc Hn].
  assert (Hnz : (frameCount_ s =? 0) = false) by (apply Z.eqb_neq; lia).
  set (cb := Dart_Closure id).
  set (w0 := Build_World true dart s [] [] inv clr).
  set (w1 := Build_World true dart s [GetNextFrameTask cb] [] inv clr).
  assert (H1 : step gen io impeller_built w0 (CallGetNextFrame cb) = w1).
  { unfold w0, w1, cb. cbn [step codec_alive]. unfold getNextFrame.
    cbn [Dart_IsClosure negb state_]. rewrite Hnz. reflexivity. }
  destruct (DecodeImage gen alloc_ok s) as [s1 [bm err]] eqn:Hdec.
  set (w2 := Build_World true dart s1 [DecodedTask cb bm err] [] inv clr).
  assert (H2 : run_io_task gen io impeller_built alloc_ok w1 = w2).
  { rewrite (run_io_task_decode gen io impeller_built alloc_ok w1 cb [] eq_refl eq_refl).
    unfold w1 at 2 3 4. cbn [state_]. rewrite Hdec. reflexivity. }
  set (t := snd (decode_callback gen io impeller_built s1 bm err cb)).
  set (w3 := Build_World true dart (advance s1) [] [t] inv clr).
  assert (H3 : run_io_task gen io impeller_built alloc_ok w2 = w3).
  { now rewrite (run_io_task_decoded gen io impeller_built alloc_ok w2 cb bm err [] eq_refl). }
  cbv zeta.
  change (serve gen io impeller_built w0 (cb, alloc_ok))
    with (run_ui_task
            (run_io_task gen io impeller_built alloc_ok
               (run_io_task gen io impeller_built alloc_ok
                  (step gen io impeller_built w0 (CallGetNextFrame cb))))).
  rewrite H1, H2, H3. cbn [fst].
  unfold run_ui_task, w3. cbn [ui_tasks]. clearbody t.
  destruct t as [im d e c|c].
  - unfold InvokeNextFrameCallback. cbn [dart_state_alive set_ui_tasks].
    destruct (negb dart); cbn; auto.
  - cbn; auto.
Qed.

Lemma serve_all_quiescent reqs : forall w,
  Forall (fun r => Dart_IsClosure (fst r) = true) reqs ->
  quiescent w -> cursor_ok fc (state_ w) ->
  let w' := serve_all gen io impeller_built reqs w in
  quiescent w' /\ cursor_ok fc (state_ w') /\
  nextFrameIndex_ (state_ w') =
    (nextFrameIndex_ (state_ w) + Z.of_nat (length reqs)) mod fc.
Proof.
  induction reqs as [|[h a] reqs IH]; intros w Hreqs Hq Hc; cbv zeta.
  - cbn [serve_all fold_left length Z.of_nat]. repeat split; try apply Hq; try apply Hc.
    rewrite Z.add_0_r, Z.mod_small; [reflexivity | apply Hc].
  - inversion Hreqs as [|r rs Hh Hrs]; subst. cbn [fst] in Hh.
    destruct h as [| | |id]; try discriminate.
    destruct (serve_quiescent w id a Hq Hc) as [Hq1 Hs1].
    assert (Hc1 : cursor_ok fc (state_ (serve gen io impeller_built w (Dart_Closure id, a)))).
    { rewrite Hs1. now apply cursor_ok_advance, cursor_ok_decode. }
    destruct (IH _ Hrs Hq1 Hc1) as (Hq2 & Hc2 & Hidx).
    unfold serve_all in *. cbn [fold_left]. repeat split; try apply Hq2; try apply Hc2.
    rewrite Hidx, Hs1.
    rewrite (proj2 (cursor_ok_advance _ (cursor_ok_decode a _ Hc))).
    destruct (DecodeImage_fixed gen a (state_ w)) as (_ & _ & _ & ->).
    rewrite Zplus_mod_idemp_l. f_equal. cbn [length]. lia.
Qed.

End CursorFacts.

(** C4: with at least one frame, whenever a decode callback runs, be it
    for a decoded bitmap or for a failure, the cursor becomes its successor
    modulo the frame count; and when requests are served one after the
    other, the cursor after [n] of them is [n mod frameCount], which is the
    frame the next request decodes. *)
Theorem C4_cursor_wraps_modulo_frame_count
    (gen : ImageGenerator) (io : IOManager) (impeller_built impeller : bool) :
  let w0 := MultiFrameCodec_new gen impeller in
  0 < frameCount w0 ->
  (forall es alloc_ok cb bm err rest,
     let w := run gen io impeller_built es w0 in
     io_tasks w = DecodedTask cb bm err :: rest ->
     nextFrameIndex_ (state_ (run_io_task gen io impeller_built alloc_ok w))
     = (nextFrameIndex_ (state_ w) + 1) mod frameCount w0) /\
  (forall reqs,
     Forall (fun r => Dart_IsClosure (fst r) = true) reqs ->
     let w := serve_all gen io impeller_built reqs w0 in
     nextFrameIndex_ (state_ w) = Z.of_nat (length reqs) mod frameCount w0 /\
     forall id alloc_ok,
       state_ (serve gen io impeller_built w (Dart_Closure id, alloc_ok))
       = advance (fst (DecodeImage gen alloc_ok (state_ w)))).
Proof.
  intros w0 Hpos. set (fc := frameCount w0) in *.
  assert (Hint : fc <= CInt.INT_MAX) by apply to_int_range.
  assert (H0 : cursor_ok fc (state_ w0))
    by (split; [reflexivity | split; [apply Z.le_refl | exact Hpos]]).
  assert (Hq0 : quiescent w0) by (repeat split).
  split.
  - intros es alloc_ok cb bm err rest w Hq.
    pose proof (cursor_ok_run gen io impeller_built fc Hpos Hint es w0 H0) as Hc.
    fold w in Hc.
    rewrite (run_io_task_decoded gen io impeller_built _ _ _ _ _ _ Hq).
    cbn [state_ post_ui set_ui_tasks set_state].
    apply (cursor_ok_advance fc Hpos Hint _ Hc).
  - intros reqs Hreqs w.
    destruct (serve_all_quiescent gen io impeller_built fc Hpos Hint reqs w0 Hreqs Hq0 H0)
      as (Hq & Hc & Hidx).
    fold w in Hq, Hc, Hidx. split.
    + rewrite Hidx. reflexivity.
    + intros id alloc_ok.
      apply (serve_quiescent gen io impeller_built fc Hpos w id alloc_ok Hq Hc).
Qed.

Lemma C4_cursor_wraps_modulo_frame_count_witness :
  let w0 := MultiFrameCodec_new three_frames false in
  let reqs := [(Dart_Closure 1, true); (Dart_Closure 2, false);
               (Dart_Closure 3, true); (Dart_Closure 4, true)] in
  nextFrameIndex_ (state_ (serve_all three_frames skia_io false reqs w0)) = 1.
Proof.
  cbv zeta.
  assert (Hpos : 0 < frameCount (MultiFrameCodec_new three_frames false))
    by reflexivity.
  destruct (C4_cursor_wraps_modulo_frame_count three_frames skia_io false false Hpos)
    as [_ Hseq].
  refine (proj1 (Hseq [(Dart_Closure 1, true); (Dart_Closure 2, false);
                       (Dart_Closure 3, true); (Dart_Closure 4, true)] _)).
  repeat constructor.
Defined.

(** ** A source without frames *)

Section NoFrames.

Variable gen : ImageGenerator.
Variable io : IOManager.
Variable impeller_built impeller : bool.
Hypothesis no_frames : frameCount (MultiFrameCodec_new gen impeller) = 0.

Lemma idle_step w e :
  idle (State_new gen impeller) w ->
  idle (State_new gen impeller) (step gen io impeller_built w e).
Proof.
  intros (Hs & Hio & Hui & Hinv & Hclr).
  destruct e as [h| | |alloc_ok|]; cbn [step].
  - unfold getNextFrame. rewrite Hs.
    change (frameCount_ (State_new gen impeller))
      with (frameCount (MultiFrameCodec_new gen impeller)).
    rewrite no_frames.
    destruct (codec_alive w), (negb (Dart_IsClosure h)); cbn [fst Z.eqb];
      try (repeat split; assumption).
    repeat split; cbn [post_ui set_ui_tasks state_ io_tasks ui_tasks invocations cleared];
      try assumption.
    apply Forall_app. split; [assumption|]. constructor; [|constructor].
    now exists h.
  - repeat split; assumption.
  - repeat split; assumption.
  - unfold run_io_task. rewrite Hio. repeat split; assumption.
  - unfold run_ui_task. destruct (ui_tasks w) as [|t rest] eqn:Hq.
    + repeat split; try assumption. rewrite Hq. constructor.
    + inversion Hui as [|t' rest' Ht Hrest]; subst.
      destruct Ht as [cb ->].
      unfold InvokeNextFrameCallback. cbn [dart_state_alive set_ui_tasks].
      destruct (negb (dart_state_alive w));
        repeat split; cbn [state_ io_tasks ui_tasks invocations cleared set_ui_tasks];
        try assumption.
      apply Forall_app. split; [assumption|]. constructor; [|constructor].
      repeat split. cbn. discriminate.
Qed.

Lemma idle_run es : forall w,
  idle (State_new gen impeller) w ->
  idle (State_new gen impeller) (run gen io impeller_built es w).
Proof.
  induction es as [|e es IH]; intros w Hw; [exact Hw|].
  cbn [run fold_left]. apply IH. now apply idle_step.
Qed.

End NoFrames.

(** The UI thread working through queued no-frame deliveries invokes each
    callback in turn with no image, duration 0 and the error. *)
Lemma no_frame_deliveries_run gen io impeller_built q : forall w,
  Forall no_frame_delivery q -> dart_state_alive w = true -> ui_tasks w = q ->
  let w' := run gen io impeller_built (repeat RunUITask (length q)) w in
  ui_tasks w' = [] /\
  invocations w' =
    invocations w ++ map (fun t => no_frame_invocation (ui_task_callback t)) q /\
  state_ w' = state_ w /\ io_tasks w' = io_tasks w /\ cleared w' = cleared w.
Proof.
  induction q as [|t q IH]; intros w Hq Hdart Hui; cbv zeta.
  - cbn [length repeat run fold_left map]. rewrite app_nil_r. auto.
  - inversion Hq as [|t' q' [cb Ht] Hrest]; subst t' q' t.
    cbn [length repeat].
    change (run gen io impeller_built (RunUITask :: repeat RunUITask (length q)) w)
      with (run gen io impeller_built (repeat RunUITask (length q)) (run_ui_task w)).
    assert (Hstep : run_ui_task w =
              {| codec_alive := codec_alive w; dart_state_alive := dart_state_alive w;
                 state_ := state_ w; io_tasks := io_tasks w; ui_tasks := q;
                 invocations := invocations w ++ [no_frame_invocation cb];
                 cleared := cleared w |}).
    { unfold run_ui_task. rewrite Hui. unfold InvokeNextFrameCallback.
      cbn [dart_state_alive set_ui_tasks]. rewrite Hdart. reflexivity. }
    destruct (IH (run_ui_task w) Hrest) as (H1 & H2 & H3 & H4 & H5).
    + now rewrite Hstep.
    + now rewrite Hstep.
    + rewrite H1, H2, H3, H4, H5, Hstep.
      cbn [invocations state_ io_tasks cleared map ui_task_callback].
      rewrite <- app_assoc. auto.
Qed.

(** C7: a codec whose source has no frames never queues work for the IO
    thread and never changes its state, cursor included; a request with a
    callable callback posts, at once and to the UI runner, the delivery of
    no image, duration 0 and a non-empty error; nothing else is ever queued
    or delivered; and once the UI thread has worked through its queue, the
    request's callback has been invoked, after those of the requests before
    it, with exactly no image, duration 0 and that error. *)
Theorem C7_no_frames_immediate_error
    (gen : ImageGenerator) (io : IOManager) (impeller_built impeller : bool)
    (es : list Event)
    (Hzero : frameCount (MultiFrameCodec_new gen impeller) = 0) :
  let w := run gen io impeller_built es (MultiFrameCodec_new gen impeller) in
  io_tasks w = [] /\
  state_ w = State_new gen impeller /\
  nextFrameIndex_ (state_ w) = 0 /\
  (forall id,
     exists err, err <> EmptyString /\
       getNextFrame w (Dart_Closure id)
       = (post_ui w (InvokeNextFrameCallbackTask None 0 err (Dart_Closure id)),
          Dart_Null)) /\
  Forall no_frame_delivery (ui_tasks w) /\
  Forall empty_invocation (invocations w) /\
  cleared w = [] /\
  (forall id,
     codec_alive w = true -> dart_state_alive w = true ->
     let w' := run gen io impeller_built
                 (CallGetNextFrame (Dart_Closure id)
                  :: repeat RunUITask (S (length (ui_tasks w)))) w in
     invocations w' =
       invocations w
       ++ map (fun t => no_frame_invocation (ui_task_callback t)) (ui_tasks w)
       ++ [no_frame_invocation (Dart_Closure id)] /\
     ui_tasks w' = [] /\ io_tasks w' = [] /\ state_ w' = state_ w).
Proof.
  intros w.
  assert (Hidle : idle (State_new gen impeller) w).
  { apply idle_run; [exact Hzero|]. repeat split; constructor. }
  destruct Hidle as (Hs & Hio & Hui & Hinv & Hclr).
  assert (Hcall : forall id,
            getNextFrame w (Dart_Closure id)
            = (post_ui w (InvokeNextFrameCallbackTask None 0
                            "Could not provide any frame." (Dart_Closure id)),
               Dart_Null)).
  { intros id. unfold getNextFrame. cbn [Dart_IsClosure negb]. rewrite Hs.
    change (frameCount_ (State_new gen impeller))
      with (frameCount (MultiFrameCodec_new gen impeller)).
    now rewrite Hzero. }
  do 3 (split; [first [assumption | now rewrite Hs]|]).
  split.
  { intros id. exists "Could not provide any frame."%string.
    split; [discriminate | apply Hcall]. }
  do 3 (split; [assumption|]).
  intros id Halive Hdart. cbv zeta.
  set (t := InvokeNextFrameCallbackTask None 0 "Could not provide any frame."
              (Dart_Closure id)).
  change (run gen io impeller_built
            (CallGetNextFrame (Dart_Closure id)
             :: repeat RunUITask (S (length (ui_tasks w)))) w)
    with (run gen io impeller_built (repeat RunUITask (S (length (ui_tasks w))))
            (step gen io impeller_built w (CallGetNextFrame (Dart_Closure id)))).
  cbn [step]. rewrite Halive, Hcall. cbn [fst]. fold t.
  replace (S (length (ui_tasks w))) with (length (ui_tasks w ++ [t]))
    by (rewrite length_app; cbn [length]; lia).
  destruct (no_frame_deliveries_run gen io impeller_built (ui_tasks w ++ [t])
              (post_ui w t)) as (H1 & H2 & H3 & H4 & _).
  - apply Forall_app. split; [exact Hui|]. constructor; [|constructor].
    now exists (Dart_Closure id).
  - exact Hdart.
  - reflexivity.
  - rewrite H1, H2, H3, H4, map_app. cbn [post_ui set_ui_tasks invocations state_ io_tasks].
    auto.
Qed.

Lemma C7_no_frames_immediate_error_witness :
  let w := run Samples.no_frames skia_io false
             [CallGetNextFrame (Dart_Closure 1); RunIOTask true;
              CallGetNextFrame (Dart_Closure 2); RunUITask]
             (MultiFrameCodec_new Samples.no_frames false) in
  io_tasks w = [] /\ nextFrameIndex_ (state_ w) = 0 /\
  invocations
    (run Samples.no_frames skia_io false
       [CallGetNextFrame (Dart_Closure 3); RunUITask; RunUITask] w)
  = [no_frame_invocation (Dart_Closure 1); no_frame_invocation (Dart_Closure 2);
     no_frame_invocation (Dart_Closure 3)].
Proof.
  cbv zeta.
  destruct (C7_no_frames_immediate_error Samples.no_frames skia_io false false
              [CallGetNextFrame (Dart_Closure 1); RunIOTask true;
               CallGetNextFrame (Dart_Closure 2); RunUITask] eq_refl)
    as (Hio & _ & Hidx & _ & _ & _ & _ & Hdeliver).
  split; [exact Hio | split; [exact Hidx|]].
  exact (proj1 (Hdeliver 3%nat eq_refl eq_refl)).
Defined.

Example no_frames_delivery :
  invocations
    (run Samples.no_frames skia_io false
       [CallGetNextFrame (Dart_Closure 1); RunIOTask true; RunUITask]
       (MultiFrameCodec_new Samples.no_frames false))
  = [{| inv_callback := Dart_Closure 1; inv_image := None; inv_duration := 0;
        inv_decode_error := "Could not provide any frame." |}].
Proof. reflexivity. Qed.

(** ** The repetition count *)

Lemma fixed_fields_run gen io impeller_built es w :
  frameCount_ (state_ (run gen io impeller_built es w)) = frameCount_ (state_ w) /\
  repetitionCount_ (state_ (run gen io impeller_built es w)) = repetitionCount_ (state_ w).
Proof.
  apply (run_state_invariant gen io impeller_built
           (fun s => frameCount_ s = frameCount_ (state_ w) /\
                     repetitionCount_ s = repetitionCount_ (state_ w))).
  - intros a s [H1 H2].
    destruct (DecodeImage_fixed gen a s) as (-> & -> & _). auto.
  - intros s H. exact H.
  - auto.
Qed.

(** C8, as stated, fails for a finite play count whose predecessor is
    not an [int]: for 2147483649 plays the repetition count is -2147483648,
    not 2147483648. *)
Lemma C8_counterexample :
  let w := MultiFrameCodec_new plays_beyond_int false in
  GetPlayCount plays_beyond_int <> kInfinitePlayCount plays_beyond_int /\
  repetitionCount w = -2147483648 /\
  repetitionCount w <> GetPlayCount plays_beyond_int - 1.
Proof.
  cbv zeta. split; [discriminate | split; [reflexivity | discriminate]].
Qed.

(** C8, amended: the repetition count is -1 for a source that plays
    forever and otherwise the play count less one converted to [int], which
    is the play count less one whenever that is an [int]; it is set when
    the codec is made, no execution changes it, and [repetitionCount] reads
    it. *)
Theorem C8_repetition_count
    (gen : ImageGenerator) (io : IOManager) (impeller_built impeller : bool)
    (es : list Event) :
  let w := run gen io impeller_built es (MultiFrameCodec_new gen impeller) in
  repetitionCount w = repetitionCount (MultiFrameCodec_new gen impeller) /\
  (GetPlayCount gen = kInfinitePlayCount gen -> repetitionCount w = -1) /\
  (GetPlayCount gen <> kInfinitePlayCount gen ->
   repetitionCount w = CInt.to_int (GetPlayCount gen - 1)) /\
  (GetPlayCount gen <> kInfinitePlayCount gen ->
   CInt.INT_MIN <= GetPlayCount gen - 1 <= CInt.INT_MAX ->
   repetitionCount w = GetPlayCount gen - 1).
Proof.
  intros w.
  assert (Hfix : repetitionCount w = repetitionCount (MultiFrameCodec_new gen impeller))
    by apply fixed_fields_run.
  split; [exact Hfix|]. rewrite Hfix.
  unfold repetitionCount, MultiFrameCodec_new, State_new. cbn [state_ repetitionCount_].
  split; [|split].
  - intros ->. now rewrite Z.eqb_refl.
  - intros Hfinite. apply Z.eqb_neq in Hfinite. now rewrite Hfinite.
  - intros Hfinite Hint. apply Z.eqb_neq in Hfinite. rewrite Hfinite.
    now apply to_int_id.
Qed.

Lemma C8_repetition_count_witness :
  repetitionCount
    (run three_frames skia_io false
       [CallGetNextFrame (Dart_Closure 1); RunIOTask true; RunIOTask true; RunUITask]
       (MultiFrameCodec_new three_frames false)) = 2.
Proof.
  refine (proj2 (proj2 (proj2 (C8_repetition_count three_frames skia_io false false
            [CallGetNextFrame (Dart_Closure 1); RunIOTask true; RunIOTask true; RunUITask])))
            _ _).
  - discriminate.
  - unfold CInt.INT_MIN, CInt.INT_MAX. cbn. lia.
Defined.

(** ** Teardown *)




(** ** A callback that is not a function *)

(** C10: called with a handle that is not a closure, [getNextFrame]
    returns the string "Callback must be a function" and leaves the world
    as it found it: nothing is posted to either runner, nothing is invoked,
    and the state, cursor included, is the same. *)
Theorem C10_callback_must_be_a_function
    (w : World) (callback_handle : Dart_Handle)
    (Hnot_closure : Dart_IsClosure callback_handle = false) :
  getNextFrame w callback_handle = (w, Dart_String "Callback must be a function").
Proof. unfold getNextFrame. now rewrite Hnot_closure. Qed.

Lemma C10_callback_must_be_a_function_witness :
  let w := run three_frames skia_io false
             [CallGetNextFrame (Dart_Closure 1); RunIOTask true]
             (MultiFrameCodec_new three_frames false) in
  getNextFrame w (Dart_Integer 5) = (w, Dart_String "Callback must be a function").
Proof.
  cbv zeta. apply C10_callback_must_be_a_function. reflexivity.
Defined.

(** * Further properties of the codec *)

(** ** Geometry of the decoded bitmaps *)

Lemma decode_info_facts gen :
  colorType (decode_info gen) = kN32_SkColorType /\
  alphaType (decode_info gen) <> kUnpremul_SkAlphaType /\
  width (decode_info gen) = width (GetInfo gen) /\
  height (decode_info gen) = height (GetInfo gen).
Proof.
  unfold decode_info. cbn [makeColorType alphaType].
  destruct (alphaType (GetInfo gen)) eqn:E; cbn; rewrite ?E; repeat split; discriminate.
Qed.

Lemma prepare_bitmap_shape s fi i :
  info (prepare_bitmap s fi (allocPixels i)) = i /\
  length (pixels (prepare_bitmap s fi (allocPixels i))) = Z.to_nat (width i * height i).
Proof.
  unfold prepare_bitmap.
  destruct (negb _), (lastRequiredFrame_ s), (restoreBGColorRect_ s);
    cbn [info pixels allocPixels update_pixels writePixels erase];
    rewrite ?map_index_length, ?repeat_length; auto.
Qed.

(** What a decode does to the retained frame: nothing, or it stores the
    bitmap the generator produced from the prepared one. *)
Lemma retained_after_decode_cases gen alloc_ok s :
  lastRequiredFrame_ (fst (DecodeImage gen alloc_ok s)) = lastRequiredFrame_ s \/
  exists out,
    lastRequiredFrame_ (fst (DecodeImage gen alloc_ok s)) = Some out /\
    info out = decode_info gen /\
    GetPixels gen (decode_info gen)
      (pixels (prepare_bitmap s (GetFrameInfo gen (nextFrameIndex_ s))
                 (allocPixels (decode_info gen))))
      (nextFrameIndex_ s)
      (requiredFrameIndex (GetFrameInfo gen (nextFrameIndex_ s))) = Some (pixels out).
Proof.
  destruct (DecodeImage gen alloc_ok s) as [s' [[out|] err]] eqn:E.
  - apply DecodeImage_success in E. destruct E as (_ & _ & Hinfo & Hpx & ->).
    cbn [fst]. rewrite lastRequiredFrame_retain. destruct (_ || _).
    + right. exists out. auto.
    + left. reflexivity.
  - apply DecodeImage_failure in E. destruct E as (-> & _). left. reflexivity.
Qed.

Lemma retained_info_run gen io impeller_built impeller es b :
  lastRequiredFrame_
    (state_ (run gen io impeller_built es (MultiFrameCodec_new gen impeller))) = Some b ->
  info b = decode_info gen.
Proof.
  revert b.
  apply (run_state_invariant gen io impeller_built
           (fun s => forall b, lastRequiredFrame_ s = Some b -> info b = decode_info gen)).
  - intros a s IH b Hb.
    destruct (retained_after_decode_cases gen a s) as [Hsame | [out [Hout [Hi _]]]].
    + apply IH. congruence.
    + congruence.
  - intros s IH b Hb. now apply IH.
  - intros b Hb. discriminate Hb.
Qed.

(** X1: whatever has happened since the codec was made, a retained frame
    has the geometry frames are decoded with: the source's width and
    height, the N32 colour type, and an alpha type that is not
    unpremultiplied. *)
Theorem retained_frame_geometry
    (gen : ImageGenerator) (io : IOManager) (impeller_built impeller : bool)
    (es : list Event) (b : SkBitmap)
    (Hretained : lastRequiredFrame_
                   (state_ (run gen io impeller_built es (MultiFrameCodec_new gen impeller)))
                 = Some b) :
  info b = decode_info gen /\
  colorType (info b) = kN32_SkColorType /\
  alphaType (info b) <> kUnpremul_SkAlphaType /\
  width (info b) = width (GetInfo gen) /\
  height (info b) = height (GetInfo gen).
Proof.
  assert (Hinfo : info b = decode_info gen)
    by (eapply retained_info_run; exact Hretained).
  split; [exact Hinfo|]. rewrite Hinfo. apply decode_info_facts.
Qed.

Lemma retained_frame_geometry_witness :
  info (bitmap_of [10; 0; 0; 0]) = decode_info three_frames /\
  colorType (info (bitmap_of [10; 0; 0; 0])) = kN32_SkColorType.
Proof.
  destruct (retained_frame_geometry three_frames skia_io false false
              [CallGetNextFrame (Dart_Closure 1); RunIOTask true]
              (bitmap_of [10; 0; 0; 0]) eq_refl) as (H1 & H2 & _).
  split; assumption.
Defined.

(** X2: for a generator that decodes in place and a source of
    non-negative width and height, a retained frame always holds one pixel
    per point of its geometry; a frame that names a required frame is
    therefore decoded into exactly the retained pixels, with the pending
    rectangle, if there is one, made transparent. *)
Theorem retained_frame_well_formed
    (gen : ImageGenerator) (io : IOManager) (impeller_built impeller : bool)
    (es : list Event) (last : SkBitmap)
    (Hplace : decodes_in_place gen)
    (Hwidth : 0 <= width (GetInfo gen)) (Hheight : 0 <= height (GetInfo gen))
    (Hretained : lastRequiredFrame_
                   (state_ (run gen io impeller_built es (MultiFrameCodec_new gen impeller)))
                 = Some last) :
  let s := state_ (run gen io impeller_built es (MultiFrameCodec_new gen impeller)) in
  well_formed last /\
  forall fi,
    requiredFrameIndex fi <> kNoFrame ->
    prepare_bitmap s fi (allocPixels (decode_info gen)) =
    match restoreBGColorRect_ s with
    | Some rect => erase SK_ColorTRANSPARENT rect last
    | None => last
    end.
Proof.
  intros s.
  destruct (decode_info_facts gen) as (_ & _ & Hw & Hh).
  assert (Hwf : well_formed last).
  { revert last Hretained.
    apply (run_state_invariant gen io impeller_built
             (fun s => forall b, lastRequiredFrame_ s = Some b -> well_formed b)).
    - intros a s0 IH b Hb.
      destruct (retained_after_decode_cases gen a s0) as [Hsame | [out [Hout [Hi Hpx]]]].
      + apply IH. congruence.
      + assert (b = out) by congruence. subst b.
        apply Hplace in Hpx.
        rewrite (proj2 (prepare_bitmap_shape _ _ _)) in Hpx.
        unfold well_formed. rewrite Hi, Hw, Hh, Hpx.
        repeat split; try assumption.
        rewrite Hw, Hh. apply Z2Nat.id. now apply Z.mul_nonneg_nonneg.
    - intros s0 IH b Hb. now apply IH.
    - intros b Hb. discriminate Hb. }
  split; [exact Hwf|].
  intros fi Hreq.
  pose proof (retained_info_run gen io impeller_built impeller es last Hretained) as Hinfo.
  unfold prepare_bitmap. fold s in Hretained.
  replace (negb (requiredFrameIndex fi =? kNoFrame)) with true
    by (symmetry; apply negb_true_iff; now apply Z.eqb_neq).
  rewrite Hretained, <- Hinfo, writePixels_same_geometry by assumption.
  reflexivity.
Qed.

Lemma paint_length v buffer : forall i, length (paint i v buffer) = length buffer.
Proof.
  induction buffer as [|p t IH]; intros i; [now destruct i|].
  destruct i; cbn; [reflexivity | now rewrite IH].
Qed.

Lemma generator_decodes_in_place frames plays bad :
  decodes_in_place (generator frames plays bad).
Proof.
  intros i buffer frame prior px. cbn [GetPixels generator].
  destruct (frame =? bad); [discriminate|].
  intros H. inversion H. apply paint_length.
Qed.

Lemma retained_frame_well_formed_witness :
  let s := state_ (run erase_then_draw skia_io false
                     [CallGetNextFrame (Dart_Closure 1); RunIOTask true; RunIOTask true;
                      CallGetNextFrame (Dart_Closure 2); RunIOTask true; RunIOTask true]
                     (MultiFrameCodec_new erase_then_draw false)) in
  restoreBGColorRect_ s = Some rect_top_left /\
  prepare_bitmap s (GetFrameInfo erase_then_draw 2)
    (allocPixels (decode_info erase_then_draw))
  = erase SK_ColorTRANSPARENT rect_top_left (bitmap_of [10; 11; 0; 0]).
Proof.
  cbv zeta. split; [reflexivity|].
  refine (proj2 (retained_frame_well_formed erase_then_draw skia_io false false
            [CallGetNextFrame (Dart_Closure 1); RunIOTask true; RunIOTask true;
             CallGetNextFrame (Dart_Closure 2); RunIOTask true; RunIOTask true]
            (bitmap_of [10; 11; 0; 0]) _ _ _ _) (GetFrameInfo erase_then_draw 2) _).
  - apply generator_decodes_in_place.
  - cbn. lia.
  - cbn. lia.
  - reflexivity.
  - discriminate.
Defined.

(** ** Frames that stand alone, frames that clear *)

(** X3: a frame that names no required frame is decoded into the blank
    bitmap, and what its decode delivers is the same from any two states
    with the same cursor, whatever they retain. *)
Theorem independent_frame_ignores_retained_state
    (gen : ImageGenerator) (alloc_ok : bool) (s s' : State)
    (Hcursor : nextFrameIndex_ s = nextFrameIndex_ s')
    (Hnone : requiredFrameIndex (GetFrameInfo gen (nextFrameIndex_ s)) = kNoFrame) :
  prepare_bitmap s (GetFrameInfo gen (nextFrameIndex_ s)) (allocPixels (decode_info gen))
  = allocPixels (decode_info gen) /\
  snd (DecodeImage gen alloc_ok s) = snd (DecodeImage gen alloc_ok s').
Proof.
  assert (Hblank : forall t, nextFrameIndex_ t = nextFrameIndex_ s ->
            prepare_bitmap t (GetFrameInfo gen (nextFrameIndex_ t))
              (allocPixels (decode_info gen)) = allocPixels (decode_info gen)).
  { intros t Ht. unfold prepare_bitmap. rewrite Ht, Hnone, Z.eqb_refl. reflexivity. }
  split; [now apply Hblank|].
  unfold DecodeImage. destruct alloc_ok; cbn [negb]; [|reflexivity].
  rewrite (Hblank s eq_refl), (Hblank s' (eq_sym Hcursor)), <- Hcursor.
  destruct (GetPixels gen _ _ _ _); reflexivity.
Qed.

Lemma independent_frame_ignores_retained_state_witness :
  snd (DecodeImage three_frames true
         (set_lastRequiredFrame (State_new three_frames false)
            (Some (bitmap_of [7; 7; 7; 7]))))
  = snd (DecodeImage three_frames true (State_new three_frames false)).
Proof.
  apply (independent_frame_ignores_retained_state three_frames true
           (set_lastRequiredFrame (State_new three_frames false)
              (Some (bitmap_of [7; 7; 7; 7])))
           (State_new three_frames false)); reflexivity.
Defined.

Lemma getPixel_allocPixels i x y : getPixel (allocPixels i) x y = SK_ColorTRANSPARENT.
Proof.
  unfold getPixel, allocPixels. cbn [info pixels].
  set (k := Z.to_nat (y * width i + x)). set (n := Z.to_nat (width i * height i)).
  destruct (Nat.lt_ge_cases k n) as [Hk|Hk].
  - apply nth_repeat_lt. exact Hk.
  - apply nth_overflow. now rewrite repeat_length.
Qed.

(** X4: once a frame whose disposal method is RestoreBGColor has been
    decoded, then, as long as the pending rectangle stays as that decode
    left it, the bitmap prepared for whichever frame comes next is
    transparent at every point of the frame's disposal rectangle, be it
    because the retained frame was copied and erased there or because the
    bitmap is blank. *)
Theorem restore_bg_color_clears_next_canvas
    (gen : ImageGenerator) (alloc_ok : bool) (s s' : State) (out : SkBitmap)
    (err : string) (s2 : State) (fi2 : FrameInfo) (x y : Z)
    (Hdecoded : DecodeImage gen alloc_ok s = (s', (Some out, err)))
    (Hdisposal : disposal_method (GetFrameInfo gen (nextFrameIndex_ s)) = kRestoreBGColor)
    (Hrect : restoreBGColorRect_ s2 = restoreBGColorRect_ s')
    (Hinside : contains (disposal_rect (GetFrameInfo gen (nextFrameIndex_ s))) x y = true) :
  let buf := prepare_bitmap s2 fi2 (allocPixels (decode_info gen)) in
  in_bounds buf x y = true ->
  getPixel buf x y = SK_ColorTRANSPARENT.
Proof.
  intros buf Hin.
  apply DecodeImage_success in Hdecoded. destruct Hdecoded as (_ & _ & _ & _ & ->).
  rewrite restoreBGColorRect_retain, Hdisposal in Hrect. cbn [DisposalMethod_eqb] in Hrect.
  assert (Hwf : well_formed (allocPixels (decode_info gen))).
  { subst buf. rewrite in_bounds_iff, (proj1 (prepare_bitmap_shape _ _ _)) in Hin.
    apply well_formed_allocPixels; lia. }
  subst buf. unfold prepare_bitmap in *.
  destruct (negb (requiredFrameIndex fi2 =? kNoFrame)); [|apply getPixel_allocPixels].
  destruct (lastRequiredFrame_ s2) as [last|]; [|apply getPixel_allocPixels].
  rewrite Hrect in *.
  rewrite getPixel_erase, Hinside; [reflexivity | | exact Hin].
  now apply well_formed_update_pixels.
Qed.

Lemma restore_bg_color_clears_next_canvas_witness :
  let s1 := set_nextFrameIndex
              (fst (DecodeImage erase_then_draw true (State_new erase_then_draw false))) 1 in
  let s2 := fst (DecodeImage erase_then_draw true s1) in
  getPixel (prepare_bitmap (advance s2) (GetFrameInfo erase_then_draw 2)
              (allocPixels (decode_info erase_then_draw))) 0 0
  = SK_ColorTRANSPARENT.
Proof.
  cbv zeta.
  refine (restore_bg_color_clears_next_canvas erase_then_draw true
            (set_nextFrameIndex
               (fst (DecodeImage erase_then_draw true (State_new erase_then_draw false))) 1)
            _ (bitmap_of [10; 11; 0; 0]) EmptyString _ (GetFrameInfo erase_then_draw 2) 0 0
            _ _ _ _ _); reflexivity.
Defined.

(** ** What each step does to the world *)

Section StepEffects.

Variable gen : ImageGenerator.
Variable io : IOManager.
Variable impeller_built : bool.

Local Abbreviation io_run := (run_io_task gen io impeller_built).
Local Abbreviation one_step := (step gen io impeller_built).
Local Abbreviation many_steps := (run gen io impeller_built).

(** The decode callback always posts a delivery for its callback, with an
    image and the duration of the frame at the cursor, or with neither. *)
Lemma decode_callback_task s bm err cb :
  exists im d e,
    decode_callback gen io impeller_built s bm err cb
    = (advance s, InvokeNextFrameCallbackTask im d e cb) /\
    ((im = None /\ d = 0) \/
     (im <> None /\ d = CInt.to_int (duration (GetFrameInfo gen (nextFrameIndex_ s))))).
Proof.
  unfold decode_callback.
  destruct bm as [b|]; [destruct (GetNextFrameImage io impeller_built s b) as [[dl|] e]|];
    unfold OnGetImageAndInvokeCallback; do 3 eexists; (split; [reflexivity|]).
  - right. split; [discriminate | reflexivity].
  - left. split; reflexivity.
  - left. split; reflexivity.
Qed.

Lemma run_invariant (P : World -> Prop) :
  (forall w e, P w -> P (one_step w e)) ->
  forall es w, P w -> P (many_steps es w).
Proof.
  intros Hstep es. induction es as [|e es IH]; intros w Hw; [exact Hw|].
  cbn [run fold_left]. apply IH, Hstep, Hw.
Qed.

Lemma getNextFrame_effect w h :
  let w' := fst (getNextFrame w h) in
  codec_alive w' = codec_alive w /\ dart_state_alive w' = dart_state_alive w /\
  state_ w' = state_ w /\ invocations w' = invocations w /\ cleared w' = cleared w /\
  (Dart_IsClosure h = false -> io_tasks w' = io_tasks w /\ ui_tasks w' = ui_tasks w) /\
  (Dart_IsClosure h = true -> frameCount_ (state_ w) = 0 ->
   io_tasks w' = io_tasks w /\
   ui_tasks w' = ui_tasks w
                 ++ [InvokeNextFrameCallbackTask None 0 "Could not provide any frame." h]) /\
  (Dart_IsClosure h = true -> frameCount_ (state_ w) <> 0 ->
   io_tasks w' = io_tasks w ++ [GetNextFrameTask h] /\ ui_tasks w' = ui_tasks w).
Proof.
  unfold getNextFrame.
  destruct (Dart_IsClosure h); cbn [negb].
  - destruct (Z.eqb_spec (frameCount_ (state_ w)) 0) as [Hz|Hz]; cbn;
      repeat split; try reflexivity; try discriminate; intros; congruence.
  - cbn. repeat split; discriminate.
Qed.

Lemma run_io_task_effect alloc_ok w :
  let w' := io_run alloc_ok w in
  codec_alive w' = codec_alive w /\ dart_state_alive w' = dart_state_alive w /\
  invocations w' = invocations w /\ cleared w' = cleared w /\
  match io_tasks w with
  | [] => w' = w
  | GetNextFrameTask cb :: rest =>
      if codec_alive w || existsb holds_state rest
      then state_ w' = fst (DecodeImage gen alloc_ok (state_ w)) /\
           ui_tasks w' = ui_tasks w /\
           exists bm err, io_tasks w' = rest ++ [DecodedTask cb bm err]
      else state_ w' = state_ w /\ io_tasks w' = rest /\
           ui_tasks w' = ui_tasks w ++ [ClearCallbackTask cb]
  | DecodedTask cb bm err :: rest =>
      state_ w' = advance (state_ w) /\ io_tasks w' = rest /\
      exists im d e,
        ui_tasks w' = ui_tasks w ++ [InvokeNextFrameCallbackTask im d e cb] /\
        ((im = None /\ d = 0) \/
         (im <> None /\
          d = CInt.to_int (duration (GetFrameInfo gen (nextFrameIndex_ (state_ w))))))
  end.
Proof.
  cbv zeta. destruct (io_tasks w) as [|[cb|cb bm err] rest] eqn:Hq.
  - unfold run_io_task. rewrite Hq. repeat split.
  - destruct (codec_alive w || existsb holds_state rest) eqn:Hlock.
    + rewrite (run_io_task_decode gen io impeller_built alloc_ok w cb rest Hq Hlock).
      repeat split. do 2 eexists. reflexivity.
    + rewrite (run_io_task_torn_down gen io impeller_built alloc_ok w cb rest Hq Hlock).
      repeat split.
  - rewrite (run_io_task_decoded gen io impeller_built alloc_ok w cb bm err rest Hq).
    destruct (decode_callback_task (state_ w) bm err cb) as (im & d & e & Heq & Hrel).
    rewrite Heq. repeat split. exists im, d, e. split; [reflexivity | exact Hrel].
Qed.

Lemma run_ui_task_effect w :
  let w' := run_ui_task w in
  codec_alive w' = codec_alive w /\ dart_state_alive w' = dart_state_alive w /\
  state_ w' = state_ w /\ io_tasks w' = io_tasks w /\
  match ui_tasks w with
  | [] => w' = w
  | InvokeNextFrameCallbackTask im d e cb :: rest =>
      ui_tasks w' = rest /\ cleared w' = cleared w /\
      invocations w' =
        if dart_state_alive w
        then invocations w ++ [{| inv_callback := cb; inv_image := im;
                                  inv_duration := d; inv_decode_error := e |}]
        else invocations w
  | ClearCallbackTask cb :: rest =>
      ui_tasks w' = rest /\ invocations w' = invocations w /\
      cleared w' = cleared w ++ [cb]
  end.
Proof.
  cbv zeta. unfold run_ui_task.
  destruct (ui_tasks w) as [|[im d e cb|cb] rest] eqn:Hq.
  - repeat split.
  - unfold InvokeNextFrameCallback. cbn [dart_state_alive set_ui_tasks].
    destruct (dart_state_alive w) eqn:Hd; cbn; rewrite ?Hd, ?Hq; repeat split.
  - cbn. repeat split.
Qed.

End StepEffects.

(** ** Invariants of the pipeline *)

(** X5: for a source with at least one frame, in every world the codec
    can reach the frame count is the one it was made with and the cursor is
    a valid frame index. *)
Theorem cursor_always_a_frame_index
    (gen : ImageGenerator) (io : IOManager) (impeller_built impeller : bool)
    (es : list Event)
    (Hframes : 0 < frameCount (MultiFrameCodec_new gen impeller)) :
  let w := run gen io impeller_built es (MultiFrameCodec_new gen impeller) in
  frameCount w = frameCount (MultiFrameCodec_new gen impeller) /\
  0 <= nextFrameIndex_ (state_ w) < frameCount w.
Proof.
  intros w.
  assert (Hok : cursor_ok (frameCount (MultiFrameCodec_new gen impeller)) (state_ w)).
  { apply cursor_ok_run; [exact Hframes | apply to_int_range |].
    split; [reflexivity | split; [apply Z.le_refl | exact Hframes]]. }
  destruct Hok as [Hfc Hidx]. unfold frameCount at 1 3. rewrite Hfc. auto.
Qed.

Lemma cursor_always_a_frame_index_witness :
  let w := run three_frames skia_io false
             [CallGetNextFrame (Dart_Closure 1); CallGetNextFrame (Dart_Closure 2);
              RunIOTask true; RunIOTask false; RunIOTask true; RunIOTask true]
             (MultiFrameCodec_new three_frames false) in
  0 <= nextFrameIndex_ (state_ w) < frameCount w.
Proof.
  cbv zeta.
  apply (cursor_always_a_frame_index three_frames skia_io false false
           [CallGetNextFrame (Dart_Closure 1); CallGetNextFrame (Dart_Closure 2);
            RunIOTask true; RunIOTask false; RunIOTask true; RunIOTask true]).
  reflexivity.
Defined.

(** X6: the state belongs to the IO thread and Dart to the UI thread: a
    step that is not the IO thread running a task leaves the state as it
    is, and the IO thread running a task neither invokes nor clears a
    callback. *)
Theorem threads_keep_to_their_own
    (gen : ImageGenerator) (io : IOManager) (impeller_built : bool)
    (w : World) (e : Event) :
  match e with
  | RunIOTask _ =>
      invocations (step gen io impeller_built w e) = invocations w /\
      cleared (step gen io impeller_built w e) = cleared w
  | _ => state_ (step gen io impeller_built w e) = state_ w
  end.
Proof.
  destruct e as [h| | |alloc_ok|]; cbn [step].
  - destruct (codec_alive w); [|reflexivity]. apply getNextFrame_effect.
  - reflexivity.
  - reflexivity.
  - destruct (run_io_task_effect gen io impeller_built alloc_ok w)
      as (_ & _ & Hinv & Hclr & _). auto.
  - apply run_ui_task_effect.
Qed.

Lemma durations_step gen io impeller_built w e :
  Forall task_duration_ok (ui_tasks w) /\ Forall invocation_duration_ok (invocations w) ->
  Forall task_duration_ok (ui_tasks (step gen io impeller_built w e)) /\
  Forall invocation_duration_ok (invocations (step gen io impeller_built w e)).
Proof.
  intros [Hui Hinv]. destruct e as [h| | |alloc_ok|]; cbn [step]; auto.
  - destruct (codec_alive w); [|auto].
    destruct (getNextFrame_effect w h) as (_ & _ & _ & -> & _ & Hno & Hzero & Hsome).
    split; [|exact Hinv].
    destruct (Dart_IsClosure h).
    + destruct (Z.eq_dec (frameCount_ (state_ w)) 0) as [Hz|Hz].
      * rewrite (proj2 (Hzero eq_refl Hz)). apply Forall_app. split; [exact Hui|].
        constructor; [|constructor]. intros _. reflexivity.
      * now rewrite (proj2 (Hsome eq_refl Hz)).
    + now rewrite (proj2 (Hno eq_refl)).
  - destruct (run_io_task_effect gen io impeller_built alloc_ok w)
      as (_ & _ & -> & _ & Hcase).
    split; [|exact Hinv].
    destruct (io_tasks w) as [|[cb|cb bm err] rest].
    + now rewrite Hcase.
    + destruct (codec_alive w || existsb holds_state rest).
      * destruct Hcase as (_ & -> & _). exact Hui.
      * destruct Hcase as (_ & _ & ->). apply Forall_app. split; [exact Hui|].
        constructor; [exact I | constructor].
    + destruct Hcase as (_ & _ & im & d & e & -> & Hrel).
      apply Forall_app. split; [exact Hui|]. constructor; [|constructor].
      intros Him. destruct Hrel as [[_ Hd]|[Hsome _]]; [exact Hd | contradiction].
  - destruct (run_ui_task_effect w) as (_ & _ & _ & _ & Hcase).
    destruct (ui_tasks w) as [|[im d e cb|cb] rest] eqn:Hq.
    + rewrite Hcase, Hq. auto.
    + destruct Hcase as (-> & _ & ->).
      inversion Hui as [|t ts Ht Hts]; subst. split; [exact Hts|].
      destruct (dart_state_alive w); [|exact Hinv].
      apply Forall_app. split; [exact Hinv|]. constructor; [exact Ht | constructor].
    + destruct Hcase as (-> & -> & _).
      inversion Hui; subst. auto.
Qed.

(** X7: every delivery a codec ever makes to Dart either carries an image
    or has duration 0. *)
Theorem delivery_without_image_has_no_duration
    (gen : ImageGenerator) (io : IOManager) (impeller_built impeller : bool)
    (es : list Event) :
  Forall invocation_duration_ok
    (invocations (run gen io impeller_built es (MultiFrameCodec_new gen impeller))).
Proof.
  apply (run_invariant gen io impeller_built
           (fun w => Forall task_duration_ok (ui_tasks w) /\
                     Forall invocation_duration_ok (invocations w))).
  - intros w e. apply durations_step.
  - split; constructor.
Qed.

Lemma dart_gone_step gen io impeller_built w e :
  dart_state_alive w = false ->
  dart_state_alive (step gen io impeller_built w e) = false /\
  invocations (step gen io impeller_built w e) = invocations w.
Proof.
  intros Hdead. destruct e as [h| | |alloc_ok|]; cbn [step]; auto.
  - destruct (codec_alive w); [|auto].
    destruct (getNextFrame_effect w h) as (_ & -> & _ & -> & _). auto.
  - destruct (run_io_task_effect gen io impeller_built alloc_ok w)
      as (_ & -> & -> & _). auto.
  - destruct (run_ui_task_effect w) as (_ & -> & _ & _ & Hcase).
    split; [exact Hdead|].
    destruct (ui_tasks w) as [|[im d e cb|cb] rest].
    + now rewrite Hcase.
    + destruct Hcase as (_ & _ & ->). now rewrite Hdead.
    + apply Hcase.
Qed.

(** X8: once the Dart state is gone no callback is invoked any more,
    whatever is still queued and whatever happens next. *)
Theorem no_invocation_without_dart_state
    (gen : ImageGenerator) (io : IOManager) (impeller_built : bool)
    (w : World) (es : list Event)
    (Hgone : dart_state_alive w = false) :
  invocations (run gen io impeller_built es w) = invocations w.
Proof.
  revert w Hgone. induction es as [|e es IH]; intros w Hgone; [reflexivity|].
  cbn [run fold_left].
  destruct (dart_gone_step gen io impeller_built w e Hgone) as [Hdead Hinv].
  rewrite <- Hinv. apply IH. exact Hdead.
Qed.

Lemma no_invocation_without_dart_state_witness :
  invocations
    (run three_frames skia_io false
       [RunIOTask true; RunIOTask true; RunUITask]
       (run three_frames skia_io false
          [CallGetNextFrame (Dart_Closure 1); ShutdownDartState]
          (MultiFrameCodec_new three_frames false))) = [].
Proof.
  apply (no_invocation_without_dart_state three_frames skia_io false
           (run three_frames skia_io false
              [CallGetNextFrame (Dart_Closure 1); ShutdownDartState]
              (MultiFrameCodec_new three_frames false))
           [RunIOTask true; RunIOTask true; RunUITask]).
  reflexivity.
Defined.

Lemma codec_alive_step gen io impeller_built w e :
  codec_alive (step gen io impeller_built w e) =
  match e with ReleaseCodec => false | _ => codec_alive w end.
Proof.
  destruct e as [h| | |alloc_ok|]; cbn [step]; try reflexivity.
  - destruct (codec_alive w) eqn:Ha; [|exact Ha].
    rewrite <- Ha. apply getNextFrame_effect.
  - apply run_io_task_effect.
  - apply run_ui_task_effect.
Qed.

Lemma no_clear_step gen io impeller_built w e :
  (codec_alive w = true ->
   cleared w = [] /\ existsb is_clear (ui_tasks w) = false) ->
  codec_alive (step gen io impeller_built w e) = true ->
  cleared (step gen io impeller_built w e) = [] /\
  existsb is_clear (ui_tasks (step gen io impeller_built w e)) = false.
Proof.
  intros IH Halive'. pose proof Halive' as Halive.
  rewrite codec_alive_step in Halive.
  destruct e as [h| | |alloc_ok|]; cbn [step]; try discriminate;
    destruct (IH Halive) as [Hclr Hui]; auto.
  - rewrite Halive.
    destruct (getNextFrame_effect w h) as (_ & _ & _ & _ & -> & Hno & Hzero & Hsome).
    split; [exact Hclr|].
    destruct (Dart_IsClosure h).
    + destruct (Z.eq_dec (frameCount_ (state_ w)) 0) as [Hz|Hz].
      * rewrite (proj2 (Hzero eq_refl Hz)), existsb_app, Hui. reflexivity.
      * now rewrite (proj2 (Hsome eq_refl Hz)).
    + now rewrite (proj2 (Hno eq_refl)).
  - destruct (run_io_task_effect gen io impeller_built alloc_ok w)
      as (_ & _ & _ & -> & Hcase).
    split; [exact Hclr|].
    destruct (io_tasks w) as [|[cb|cb bm err] rest].
    + now rewrite Hcase.
    + rewrite Halive in Hcase. cbn [orb] in Hcase.
      destruct Hcase as (_ & -> & _). exact Hui.
    + destruct Hcase as (_ & _ & im & d & e & -> & _).
      rewrite existsb_app, Hui. reflexivity.
  - destruct (run_ui_task_effect w) as (_ & _ & _ & _ & Hcase).
    destruct (ui_tasks w) as [|[im d e cb|cb] rest] eqn:Hq.
    + rewrite Hcase, Hq. auto.
    + destruct Hcase as (-> & -> & _). cbn [existsb is_clear orb] in Hui. auto.
    + cbn [existsb is_clear orb] in Hui. discriminate.
Qed.

(** X9: as long as the codec exists no callback is cleared and no task
    that clears one is queued: every request is answered through its
    callback. *)
Theorem callbacks_cleared_only_after_release
    (gen : ImageGenerator) (io : IOManager) (impeller_built impeller : bool)
    (es : list Event)
    (Halive : codec_alive
                (run gen io impeller_built es (MultiFrameCodec_new gen impeller)) = true) :
  cleared (run gen io impeller_built es (MultiFrameCodec_new gen impeller)) = [] /\
  existsb is_clear
    (ui_tasks (run gen io impeller_built es (MultiFrameCodec_new gen impeller))) = false.
Proof.
  revert Halive.
  apply (run_invariant gen io impeller_built
           (fun w => codec_alive w = true ->
                     cleared w = [] /\ existsb is_clear (ui_tasks w) = false)).
  - intros w e. apply no_clear_step.
  - intros _. split; reflexivity.
Qed.

Lemma callbacks_cleared_only_after_release_witness :
  cleared
    (run three_frames skia_io false
       [CallGetNextFrame (Dart_Closure 1); RunIOTask false; RunIOTask true; RunUITask]
       (MultiFrameCodec_new three_frames false)) = [].
Proof.
  apply (callbacks_cleared_only_after_release three_frames skia_io false false
           [CallGetNextFrame (Dart_Closure 1); RunIOTask false; RunIOTask true; RunUITask]).
  reflexivity.
Defined.

Lemma dart_gone_run gen io impeller_built es w :
  dart_state_alive w = false ->
  dart_state_alive (run gen io impeller_built es w) = false.
Proof.
  apply (run_invariant gen io impeller_built (fun w => dart_state_alive w = false)).
  intros w0 e H. now apply dart_gone_step.
Qed.

Lemma Dart_Handle_eq_dec (a b : Dart_Handle) : {a = b} + {a <> b}.
Proof.
  decide equality; [apply string_dec | apply Z.eq_dec | apply Nat.eq_dec].
Qed.

(** How often the callback [x] occurs among the callbacks [l]. *)
Local Abbreviation occurrences := (count_occ Dart_Handle_eq_dec).

Lemma occurrences_cons a l x :
  occurrences (a :: l) x = (occurrences [a] x + occurrences l x)%nat.
Proof. change (a :: l) with ([a] ++ l). apply count_occ_app. Qed.

(** Sums of occurrences, whichever name the handle type is written with. *)
Ltac count_lia := unfold DartPersistentValue in *; lia.

Lemma accounted_step gen io impeller_built w e x :
  dart_state_alive w = true ->
  occurrences (accounted_callbacks (step gen io impeller_built w e)) x =
  (occurrences (accounted_callbacks w) x +
   occurrences
     match e with
     | CallGetNextFrame h => if codec_alive w && Dart_IsClosure h then [h] else []
     | _ => []
     end x)%nat.
Proof.
  intros Hdart. unfold accounted_callbacks.
  destruct e as [h| | |alloc_ok|]; cbn [step]; try (cbn; count_lia).
  - destruct (codec_alive w); cbn [andb]; [|cbn [count_occ]; count_lia].
    destruct (getNextFrame_effect w h) as (_ & _ & _ & -> & -> & Hno & Hzero & Hsome).
    destruct (Dart_IsClosure h).
    + destruct (Z.eq_dec (frameCount_ (state_ w)) 0) as [Hz|Hz].
      * destruct (Hzero eq_refl Hz) as [-> ->].
        rewrite map_app, !count_occ_app. cbn [map ui_task_callback]. count_lia.
      * destruct (Hsome eq_refl Hz) as [-> ->].
        rewrite map_app, !count_occ_app. cbn [map task_callback]. count_lia.
    + destruct (Hno eq_refl) as [-> ->]. cbn [count_occ]. count_lia.
  - destruct (run_io_task_effect gen io impeller_built alloc_ok w)
      as (_ & _ & -> & -> & Hcase).
    destruct (io_tasks w) as [|[cb|cb bm err] rest] eqn:Hq.
    + rewrite Hcase, Hq. cbn [count_occ]. count_lia.
    + cbn [map task_callback]. rewrite !count_occ_app, (occurrences_cons cb).
      destruct (codec_alive w || existsb holds_state rest).
      * destruct Hcase as (_ & -> & bm & err & ->).
        rewrite map_app, !count_occ_app. cbn [map task_callback count_occ]. count_lia.
      * destruct Hcase as (_ & -> & ->).
        rewrite map_app, !count_occ_app. cbn [map ui_task_callback count_occ]. count_lia.
    + cbn [map task_callback]. rewrite !count_occ_app, (occurrences_cons cb).
      destruct Hcase as (_ & -> & im & d & e & -> & _).
      rewrite map_app, !count_occ_app. cbn [map ui_task_callback count_occ]. count_lia.
  - destruct (run_ui_task_effect w) as (_ & _ & _ & -> & Hcase).
    destruct (ui_tasks w) as [|[im d e cb|cb] rest] eqn:Hq.
    + rewrite Hcase, Hq. cbn [count_occ]. count_lia.
    + cbn [map ui_task_callback]. rewrite !count_occ_app, (occurrences_cons cb).
      destruct Hcase as (-> & -> & ->). rewrite Hdart.
      rewrite map_app, !count_occ_app. cbn [map inv_callback count_occ]. count_lia.
    + cbn [map ui_task_callback]. rewrite !count_occ_app, (occurrences_cons cb).
      destruct Hcase as (-> & -> & ->).
      rewrite !count_occ_app. cbn [count_occ]. count_lia.
Qed.

Lemma accounted_run gen io impeller_built es x : forall w,
  dart_state_alive (run gen io impeller_built es w) = true ->
  occurrences (accounted_callbacks (run gen io impeller_built es w)) x
  = (occurrences (accounted_callbacks w) x
     + occurrences (accepted_callbacks (codec_alive w) es) x)%nat.
Proof.
  induction es as [|e es IH]; intros w Hdart.
  - cbn [run fold_left accepted_callbacks count_occ]. count_lia.
  - assert (Hw : dart_state_alive w = true).
    { destruct (dart_state_alive w) eqn:Hd; [reflexivity|].
      pose proof (dart_gone_run gen io impeller_built (e :: es) w Hd) as Hgone.
      congruence. }
    change (run gen io impeller_built (e :: es) w)
      with (run gen io impeller_built es (step gen io impeller_built w e)) in *.
    rewrite (IH _ Hdart), (accounted_step gen io impeller_built w e x Hw),
      codec_alive_step.
    destruct e; cbn [accepted_callbacks]; rewrite ?count_occ_app;
      cbn [count_occ]; count_lia.
Qed.



(** ** Requests served one after the other *)

Section SequentialFacts.

Variable gen : ImageGenerator.
Variable io : IOManager.
Variable impeller_built : bool.
Variable fc : Z.
Hypothesis fc_pos : 0 < fc.
Hypothesis fc_int : fc <= CInt.INT_MAX.

(** The delivery a request gets when it is served from a quiescent world. *)
Lemma serve_delivery w id alloc_ok :
  quiescent w -> dart_state_alive w = true -> cursor_ok fc (state_ w) ->
  let w' := serve gen io impeller_built w (Dart_Closure id, alloc_ok) in
  dart_state_alive w' = true /\
  exists i,
    invocations w' = invocations w ++ [i] /\
    inv_callback i = Dart_Closure id /\
    delivers_frame gen (nextFrameIndex_ (state_ w)) i.
Proof.
  intros (Halive & Hio & Hui) Hdart [Hfc Hn]. cbv zeta.
  assert (Hnz : frameCount_ (state_ w) <> 0) by lia.
  set (cb := Dart_Closure id).
  set (w1 := step gen io impeller_built w (CallGetNextFrame cb)).
  set (w2 := run_io_task gen io impeller_built alloc_ok w1).
  set (w3 := run_io_task gen io impeller_built alloc_ok w2).
  change (serve gen io impeller_built w (cb, alloc_ok)) with (run_ui_task w3).
  (* the call *)
  assert (H1 : codec_alive w1 = true /\ dart_state_alive w1 = true /\
               state_ w1 = state_ w /\ invocations w1 = invocations w /\
               io_tasks w1 = [GetNextFrameTask cb] /\ ui_tasks w1 = []).
  { subst w1. cbn [step]. rewrite Halive.
    destruct (getNextFrame_effect w cb) as (-> & -> & -> & -> & _ & _ & _ & Hsome).
    destruct (Hsome eq_refl Hnz) as [-> ->]. rewrite Hio, Hui.
    repeat split; assumption. }
  destruct H1 as (Ha1 & Hd1 & Hs1 & Hi1 & Hio1 & Hui1).
  (* the decode *)
  pose proof (run_io_task_effect gen io impeller_built alloc_ok w1) as H2.
  cbv zeta in H2. fold w2 in H2. rewrite Hio1, Ha1 in H2. cbn [orb] in H2.
  destruct H2 as (Ha2 & Hd2 & Hi2 & _ & Hs2 & Hui2 & bm & err & Hio2).
  cbn [app] in Hio2.
  (* the decode callback *)
  pose proof (run_io_task_effect gen io impeller_built alloc_ok w2) as H3.
  cbv zeta in H3. fold w3 in H3. rewrite Hio2 in H3.
  destruct H3 as (Ha3 & Hd3 & Hi3 & _ & Hs3 & Hio3 & im & d & e & Hui3 & Hrel).
  (* the delivery *)
  pose proof (run_ui_task_effect w3) as H4. cbv zeta in H4.
  rewrite Hui3, Hui2, Hui1 in H4. cbn [app] in H4.
  destruct H4 as (_ & Hd4 & _ & _ & _ & _ & Hi4).
  split; [congruence|].
  exists {| inv_callback := cb; inv_image := im; inv_duration := d;
            inv_decode_error := e |}.
  split; [|split; [reflexivity|]].
  - rewrite Hi4, Hd3, Hd2, Hd1, Hi3, Hi2, Hi1. reflexivity.
  - unfold delivers_frame. cbn [inv_image inv_duration].
    replace (nextFrameIndex_ (state_ w)) with (nextFrameIndex_ (state_ w2)); [exact Hrel|].
    rewrite Hs2, Hs1. apply DecodeImage_fixed.
Qed.

Lemma serve_all_delivery reqs : forall w k,
  Forall (fun r => Dart_IsClosure (fst r) = true) reqs ->
  quiescent w -> dart_state_alive w = true -> cursor_ok fc (state_ w) ->
  nextFrameIndex_ (state_ w) = k mod fc ->
  exists l,
    invocations (serve_all gen io impeller_built reqs w) = invocations w ++ l /\
    delivered_in_order gen fc k reqs l.
Proof.
  induction reqs as [|[h a] reqs IH]; intros w k Hreqs Hq Hdart Hc Hk.
  - exists []. split; [now rewrite app_nil_r | exact I].
  - inversion Hreqs as [|r rs Hh Hrs]; subst. cbn [fst] in Hh.
    destruct h as [| | |id]; try discriminate.
    destruct (serve_quiescent gen io impeller_built fc fc_pos w id a Hq Hc) as [Hq1 Hs1].
    destruct (serve_delivery w id a Hq Hdart Hc) as (Hdart1 & i & Hinv & Hcb & Hframe).
    destruct (cursor_ok_advance fc fc_pos fc_int _
                (cursor_ok_decode gen fc a _ Hc)) as [Hc1 Hidx].
    rewrite <- Hs1 in Hc1, Hidx.
    assert (Hk1 : nextFrameIndex_
                    (state_ (serve gen io impeller_built w (Dart_Closure id, a)))
                  = (k + 1) mod fc).
    { rewrite Hidx. destruct (DecodeImage_fixed gen a (state_ w)) as (_ & _ & _ & ->).
      rewrite Hk. apply Zplus_mod_idemp_l. }
    destruct (IH _ (k + 1) Hrs Hq1 Hdart1 Hc1 Hk1) as (l & Hl & Hord).
    exists (i :: l). split.
    + change (serve_all gen io impeller_built ((Dart_Closure id, a) :: reqs) w)
        with (serve_all gen io impeller_built reqs
                (serve gen io impeller_built w (Dart_Closure id, a))).
      rewrite Hl, Hinv, <- app_assoc. reflexivity.
    + cbn [delivered_in_order fst]. rewrite <- Hk. auto.
Qed.

End SequentialFacts.

(** X11: when requests with callable callbacks are served one after the
    other by a codec with at least one frame, Dart receives exactly one
    delivery per request, in the order of the requests, each through the
    request's own callback; the [n]-th of them (from 0) carries either no
    image and duration 0 or an image and the duration of frame
    [n mod frameCount]. *)
Theorem sequential_requests_delivered_in_order
    (gen : ImageGenerator) (io : IOManager) (impeller_built impeller : bool)
    (reqs : list (Dart_Handle * bool))
    (Hframes : 0 < frameCount (MultiFrameCodec_new gen impeller))
    (Hclosures : Forall (fun r => Dart_IsClosure (fst r) = true) reqs) :
  delivered_in_order gen (frameCount (MultiFrameCodec_new gen impeller)) 0 reqs
    (invocations (serve_all gen io impeller_built reqs (MultiFrameCodec_new gen impeller))).
Proof.
  destruct (serve_all_delivery gen io impeller_built
              (frameCount (MultiFrameCodec_new gen impeller)) Hframes
              (proj2 (to_int_range _)) reqs (MultiFrameCodec_new gen impeller) 0
              Hclosures)
    as (l & Hl & Hord).
  - repeat split.
  - reflexivity.
  - split; [reflexivity | split; [apply Z.le_refl | exact Hframes]].
  - rewrite Z.mod_0_l by lia. reflexivity.
  - rewrite Hl. exact Hord.
Qed.

Lemma sequential_requests_delivered_in_order_witness :
  delivered_in_order three_frames 3 0
    [(Dart_Closure 1, true); (Dart_Closure 2, false); (Dart_Closure 3, true);
     (Dart_Closure 4, true)]
    (invocations
       (serve_all three_frames skia_io false
          [(Dart_Closure 1, true); (Dart_Closure 2, false); (Dart_Closure 3, true);
           (Dart_Closure 4, true)]
          (MultiFrameCodec_new three_frames false))).
Proof.
  apply (sequential_requests_delivered_in_order three_frames skia_io false false
           [(Dart_Closure 1, true); (Dart_Closure 2, false); (Dart_Closure 3, true);
            (Dart_Closure 4, true)]).
  - reflexivity.
  - repeat constructor.
Defined.

(** ** The upload *)

(** X12: when the upload does not go through Impeller, the error string
    delivered for a request is empty exactly when its decode produced a
    bitmap: the Skia upload never reports an error of its own. *)
Theorem skia_delivery_error_iff_decode_failed
    (gen : ImageGenerator) (io : IOManager) (impeller_built : bool)
    (alloc_ok : bool) (s : State) (cb : DartPersistentValue)
    (Hskia : impeller_built && is_impeller_enabled_ s = false) :
  let decoded := DecodeImage gen alloc_ok s in
  exists im d e,
    snd (decode_callback gen io impeller_built (fst decoded)
           (fst (snd decoded)) (snd (snd decoded)) cb)
    = InvokeNextFrameCallbackTask im d e cb /\
    (e = EmptyString <-> fst (snd decoded) <> None).
Proof.
  cbv zeta.
  destruct (DecodeImage_fixed gen alloc_ok s) as (_ & _ & Himp & _).
  destruct (DecodeImage gen alloc_ok s) as [s1 [[out|] err]] eqn:Hdec; cbn [fst snd] in *.
  - unfold decode_callback, GetNextFrameImage. rewrite Himp, Hskia.
    do 3 eexists. split; [reflexivity|]. split; [discriminate | reflexivity].
  - apply DecodeImage_failure in Hdec. destruct Hdec as (_ & Herr & _).
    do 3 eexists. split; [reflexivity|]. split; [contradiction | intros H; now elim H].
Qed.

Lemma skia_delivery_error_iff_decode_failed_witness :
  exists im d e,
    snd (decode_callback undecodable skia_io false
           (fst (DecodeImage undecodable true (State_new undecodable false)))
           (fst (snd (DecodeImage undecodable true (State_new undecodable false))))
           (snd (snd (DecodeImage undecodable true (State_new undecodable false))))
           (Dart_Closure 1))
    = InvokeNextFrameCallbackTask im d e (Dart_Closure 1) /\
    (e = EmptyString <->
     fst (snd (DecodeImage undecodable true (State_new undecodable false))) <> None).
Proof.
  exact (skia_delivery_error_iff_decode_failed undecodable skia_io false true
           (State_new undecodable false) (Dart_Closure 1) eq_refl).
Defined.

(** ** After the state is gone *)

Lemma gone_step gen io impeller_built w e :
  codec_alive w = false -> existsb holds_state (io_tasks w) = false ->
  codec_alive (step gen io impeller_built w e) = false /\
  existsb holds_state (io_tasks (step gen io impeller_built w e)) = false /\
  state_ (step gen io impeller_built w e) = state_ w.
Proof.
  intros Hdead Hnone. rewrite codec_alive_step.
  destruct e as [h| | |alloc_ok|]; cbn [step]; auto.
  - rewrite Hdead. auto.
  - split; [exact Hdead|].
    destruct (run_io_task_effect gen io impeller_built alloc_ok w) as (_ & _ & _ & _ & Hcase).
    destruct (io_tasks w) as [|[cb|cb bm err] rest] eqn:Hq.
    + rewrite Hcase, Hq. auto.
    + cbn [existsb holds_state orb] in Hnone. rewrite Hdead, Hnone in Hcase.
      destruct Hcase as (-> & -> & _). auto.
    + cbn [existsb holds_state orb] in Hnone. discriminate.
  - split; [exact Hdead|].
    destruct (run_ui_task_effect w) as (_ & _ & -> & -> & _). auto.
Qed.

(** X13: once the codec is released and no decode callback is queued any
    more, the state is never read or written again: no execution changes
    it, and no decode callback is ever queued again. *)
Theorem destroyed_state_never_touched
    (gen : ImageGenerator) (io : IOManager) (impeller_built : bool)
    (w : World) (es : list Event)
    (Hreleased : codec_alive w = false)
    (Hnone_pending : existsb holds_state (io_tasks w) = false) :
  state_ (run gen io impeller_built es w) = state_ w /\
  existsb holds_state (io_tasks (run gen io impeller_built es w)) = false /\
  codec_alive (run gen io impeller_built es w) = false.
Proof.
  revert w Hreleased Hnone_pending.
  induction es as [|e es IH]; intros w Hreleased Hnone_pending; [auto|].
  destruct (gone_step gen io impeller_built w e Hreleased Hnone_pending)
    as (Hdead & Hnone & Hstate).
  change (run gen io impeller_built (e :: es) w)
    with (run gen io impeller_built es (step gen io impeller_built w e)).
  rewrite <- Hstate. now apply IH.
Qed.

Lemma destroyed_state_never_touched_witness :
  let w := run three_frames skia_io false
             [CallGetNextFrame (Dart_Closure 1); CallGetNextFrame (Dart_Closure 2);
              ReleaseCodec]
             (MultiFrameCodec_new three_frames false) in
  state_ (run three_frames skia_io false
            [RunIOTask true; CallGetNextFrame (Dart_Closure 3); RunIOTask true; RunUITask] w)
  = State_new three_frames false.
Proof.
  cbv zeta.
  refine (proj1 (destroyed_state_never_touched three_frames skia_io false
            (run three_frames skia_io false
               [CallGetNextFrame (Dart_Closure 1); CallGetNextFrame (Dart_Closure 2);
                ReleaseCodec]
               (MultiFrameCodec_new three_frames false))
            [RunIOTask true; CallGetNextFrame (Dart_Closure 3); RunIOTask true; RunUITask]
            _ _)); reflexivity.
Defined.

(** X14: once the codec is released and no decode callback is queued, the
    IO thread, working through the requests still queued, decodes none of
    them: it empties its queue and posts to the UI runner one clearing task
    per request, in the order the requests were made. *)
Theorem pending_requests_cleared_in_order
    (gen : ImageGenerator) (io : IOManager) (impeller_built : bool)
    (flags : list bool) (w : World)
    (Hreleased : codec_alive w = false)
    (Hnone_pending : existsb holds_state (io_tasks w) = false)
    (Hall : length flags = length (io_tasks w)) :
  let w' := run gen io impeller_built (map RunIOTask flags) w in
  io_tasks w' = [] /\
  ui_tasks w' = ui_tasks w ++ map (fun t => ClearCallbackTask (task_callback t)) (io_tasks w) /\
  state_ w' = state_ w.
Proof.
  revert w Hreleased Hnone_pending Hall.
  induction flags as [|a flags IH]; intros w Hreleased Hnone_pending Hall; cbv zeta.
  - destruct (io_tasks w) as [|t q] eqn:Hq; [|discriminate].
    cbn. rewrite Hq, app_nil_r. auto.
  - destruct (io_tasks w) as [|t q] eqn:Hq; [discriminate|].
    cbn [map].
    change (run gen io impeller_built (RunIOTask a :: map RunIOTask flags) w)
      with (run gen io impeller_built (map RunIOTask flags)
              (run_io_task gen io impeller_built a w)).
    destruct (run_io_task_effect gen io impeller_built a w) as (Ha & _ & _ & _ & Hcase).
    rewrite Hq in Hcase.
    destruct t as [cb|cb bm err]; cbn [existsb holds_state orb] in Hnone_pending;
      [|discriminate].
    rewrite Hreleased, Hnone_pending in Hcase. cbn [orb] in Hcase.
    destruct Hcase as (Hs & Hio & Hui).
    destruct (IH (run_io_task gen io impeller_built a w)) as (Hio' & Hui' & Hs').
    + now rewrite Ha.
    + now rewrite Hio.
    + rewrite Hio. cbn [length] in Hall. congruence.
    + cbv zeta in Hio', Hui', Hs'.
      rewrite Hio', Hui', Hs', Hui, Hio, Hs, <- app_assoc. auto.
Qed.

Lemma pending_requests_cleared_in_order_witness :
  let w := run three_frames skia_io false
             [CallGetNextFrame (Dart_Closure 1); CallGetNextFrame (Dart_Closure 2);
              ReleaseCodec]
             (MultiFrameCodec_new three_frames false) in
  ui_tasks (run three_frames skia_io false [RunIOTask true; RunIOTask false] w)
  = [ClearCallbackTask (Dart_Closure 1); ClearCallbackTask (Dart_Closure 2)].
Proof.
  cbv zeta.
  refine (proj1 (proj2 (pending_requests_cleared_in_order three_frames skia_io false
            [true; false]
            (run three_frames skia_io false
               [CallGetNextFrame (Dart_Closure 1); CallGetNextFrame (Dart_Closure 2);
                ReleaseCodec]
               (MultiFrameCodec_new three_frames false))
            _ _ _))); reflexivity.
Defined.

(** ** The pending rectangle and the cursor under load *)

(** X15: for a source with at least one frame, a pending rectangle is
    always the disposal rectangle of one of the source's frames whose
    disposal method is RestoreBGColor; a source without such a frame never
    has anything erased. *)
Theorem pending_rect_comes_from_a_frame
    (gen : ImageGenerator) (io : IOManager) (impeller_built impeller : bool)
    (es : list Event) (rect : SkIRect)
    (Hframes : 0 < frameCount (MultiFrameCodec_new gen impeller))
    (Hpending : restoreBGColorRect_
                  (state_ (run gen io impeller_built es (MultiFrameCodec_new gen impeller)))
                = Some rect) :
  exists k,
    0 <= k < frameCount (MultiFrameCodec_new gen impeller) /\
    disposal_method (GetFrameInfo gen k) = kRestoreBGColor /\
    rect = disposal_rect (GetFrameInfo gen k).
Proof.
  set (fc := frameCount (MultiFrameCodec_new gen impeller)) in *.
  assert (Hint : fc <= CInt.INT_MAX) by apply to_int_range.
  revert rect Hpending.
  apply (run_state_invariant gen io impeller_built
           (fun s => cursor_ok fc s /\
                     forall rect, restoreBGColorRect_ s = Some rect ->
                       exists k, 0 <= k < fc /\
                         disposal_method (GetFrameInfo gen k) = kRestoreBGColor /\
                         rect = disposal_rect (GetFrameInfo gen k))).
  - intros a s [Hc IH]. split; [now apply cursor_ok_decode|].
    intros rect Hrect.
    destruct (DecodeImage gen a s) as [s' [[out|] err]] eqn:Hdec; cbn [fst] in Hrect.
    + apply DecodeImage_success in Hdec. destruct Hdec as (_ & _ & _ & _ & ->).
      rewrite restoreBGColorRect_retain in Hrect.
      destruct (DisposalMethod_eqb _ kRestoreBGColor) eqn:Hd; [|discriminate].
      apply DisposalMethod_eqb_eq in Hd. inversion Hrect; subst.
      exists (nextFrameIndex_ s). destruct Hc as [_ Hidx]. auto.
    + apply DecodeImage_failure in Hdec. destruct Hdec as (-> & _). now apply IH.
  - intros s [Hc IH]. split; [now apply cursor_ok_advance | exact IH].
  - split.
    + split; [reflexivity | split; [apply Z.le_refl | exact Hframes]].
    + intros rect Hrect. discriminate Hrect.
Qed.

Lemma pending_rect_comes_from_a_frame_witness :
  exists k,
    0 <= k < 3 /\
    disposal_method (GetFrameInfo erase_then_draw k) = kRestoreBGColor /\
    rect_top_left = disposal_rect (GetFrameInfo erase_then_draw k).
Proof.
  apply (pending_rect_comes_from_a_frame erase_then_draw skia_io false false
           [CallGetNextFrame (Dart_Closure 1); RunIOTask true; RunIOTask true;
            CallGetNextFrame (Dart_Closure 2); RunIOTask true]
           rect_top_left); reflexivity.
Defined.

(** X16: the cursor moves only in the decode callback, which is queued
    behind the requests already waiting; so when two requests wait on the
    IO runner of a live codec, the second is decoded at the cursor the
    first was decoded at, on the state the first decode left. *)
Theorem queued_requests_decode_the_same_frame
    (gen : ImageGenerator) (io : IOManager) (impeller_built : bool)
    (a1 a2 : bool) (w : World) (cb1 cb2 : DartPersistentValue) (rest : list IOTask)
    (Halive : codec_alive w = true)
    (Hqueue : io_tasks w = GetNextFrameTask cb1 :: GetNextFrameTask cb2 :: rest) :
  let w1 := run_io_task gen io impeller_built a1 w in
  let w2 := run_io_task gen io impeller_built a2 w1 in
  state_ w1 = fst (DecodeImage gen a1 (state_ w)) /\
  state_ w2 = fst (DecodeImage gen a2 (state_ w1)) /\
  nextFrameIndex_ (state_ w1) = nextFrameIndex_ (state_ w) /\
  nextFrameIndex_ (state_ w2) = nextFrameIndex_ (state_ w) /\
  exists bm1 err1 bm2 err2,
    io_tasks w2 = rest ++ [DecodedTask cb1 bm1 err1; DecodedTask cb2 bm2 err2].
Proof.
  intros w1 w2.
  pose proof (run_io_task_effect gen io impeller_built a1 w) as H1.
  cbv zeta in H1. fold w1 in H1. rewrite Hqueue, Halive in H1. cbn [orb] in H1.
  destruct H1 as (Ha1 & _ & _ & _ & Hs1 & _ & bm1 & err1 & Hio1).
  pose proof (run_io_task_effect gen io impeller_built a2 w1) as H2.
  cbv zeta in H2. fold w2 in H2. rewrite Hio1, Ha1 in H2. cbn [app orb] in H2.
  destruct H2 as (_ & _ & _ & _ & Hs2 & _ & bm2 & err2 & Hio2).
  assert (Hi1 : nextFrameIndex_ (state_ w1) = nextFrameIndex_ (state_ w))
    by (rewrite Hs1; apply DecodeImage_fixed).
  repeat split; try assumption.
  - rewrite Hs2, <- Hi1. apply DecodeImage_fixed.
  - exists bm1, err1, bm2, err2. rewrite Hio2, <- app_assoc. reflexivity.
Qed.

Lemma queued_requests_decode_the_same_frame_witness :
  let w := run three_frames skia_io false
             [CallGetNextFrame (Dart_Closure 1); CallGetNextFrame (Dart_Closure 2)]
             (MultiFrameCodec_new three_frames false) in
  nextFrameIndex_
    (state_ (run_io_task three_frames skia_io false true
               (run_io_task three_frames skia_io false true w))) = 0.
Proof.
  cbv zeta.
  destruct (queued_requests_decode_the_same_frame three_frames skia_io false true true
              (run three_frames skia_io false
                 [CallGetNextFrame (Dart_Closure 1); CallGetNextFrame (Dart_Closure 2)]
                 (MultiFrameCodec_new three_frames false))
              (Dart_Closure 1) (Dart_Closure 2) [] eq_refl eq_refl)
    as (_ & _ & _ & Hsame & _).
  exact Hsame.
Defined.
